(** * cava-grammar: event correlation and grammar synthesis

    A shallow embedding of the Python sources of the CAVA grammar generator
    ([utils/hash_buffer.py], [core/grammar_classes.py], [core/misc.py] and
    [core/event_converter.py]) and the properties of its buffer, sentence
    model and correlation policies.

    Modelling conventions.
    - A JSON scalar read from a payload is a [value]; nested and floating
      payload values do not occur in the fields the policies read.
    - Timestamps are exact rationals ([Q]); the binary rounding of Python's
      float subtraction is not modelled.
    - The dictionaries of [core/misc.py] are [gmap]s; [d.get(k)] is lookup.
    - The records held by the buffer are shared, mutable dictionaries: a
      reference to one is its position in [events_], and a policy that sets
      ["Consumed"] updates the buffer's list in place.
    - A Python exception is a [Raise] result; output on stdout is dropped.
    - Strings hold ASCII text ([lower] and [capitalize] act on it). *)

From Stdlib Require Import QArith Lqa Ascii String.
From stdpp Require Import gmap strings list pretty.

Local Open Scope string_scope.
Local Open Scope list_scope.
Local Open Scope Z_scope.

(** ** Python values, results and exceptions *)

Inductive value : Type :=
  | VNone
  | VBool (b : bool)
  | VInt (z : Z)
  | VStr (s : string).

Inductive exn : Type := TypeError | AttributeError | SystemExit.

Inductive result (A : Type) : Type :=
  | Ok (a : A)
  | Raise (e : exn).
Arguments Ok {A} a.
Arguments Raise {A} e.

#[global] Instance result_ret : MRet result := fun A a => Ok a.

#[global] Instance result_bind : MBind result := fun A B k r =>
  match r with
  | Ok a => k a
  | Raise e => Raise e
  end.

#[global] Instance result_fmap : FMap result := fun A B f r =>
  match r with
  | Ok a => Ok (f a)
  | Raise e => Raise e
  end.

(** [v is None] *)
Definition is_None (v : value) : bool :=
  match v with
  | VNone => true
  | _ => false
  end.

(** [a == b] on scalars: [True == 1] and [False == 0] hold in Python. *)
Definition as_int (v : value) : option Z :=
  match v with
  | VBool true => Some 1
  | VBool false => Some 0
  | VInt z => Some z
  | _ => None
  end.

Definition py_eq (a b : value) : bool :=
  match a, b with
  | VNone, VNone => true
  | VStr s, VStr t => String.eqb s t
  | _, _ =>
      match as_int a, as_int b with
      | Some x, Some y => Z.eqb x y
      | _, _ => false
      end
  end.

(** Truth value of a scalar in an [if]. *)
Definition truthy (v : value) : bool :=
  match v with
  | VNone => false
  | VBool b => b
  | VInt z => negb (Z.eqb z 0)
  | VStr s => negb (String.eqb s "")
  end.

(** [prefix + v] for a string [prefix]: only a string can be appended. *)
Definition as_str (v : value) : result string :=
  match v with
  | VStr s => Ok s
  | _ => Raise TypeError
  end.

(** [d.get(k)] for a payload dictionary. *)
Definition dget (d : gmap string value) (k : string) : value :=
  default VNone (d !! k).

(** [a < b] on timestamps. *)
Definition Qltb (a b : Q) : bool :=
  (Qnum a * Z.pos (Qden b) <? Qnum b * Z.pos (Qden a))%Z.

(** ** utils/hash_buffer.py *)

(** The dictionary [mod_event] built by [HashBuffer.add].  The key ["Event"]
    holds the raw entry [{Name: Data}], which [Name] and [Data] determine;
    ["Timestamp"] is the payload's timestamp, a number in well-formed
    telemetry. *)
Record Event : Type := mk_event {
  Name : string;
  Data : gmap string value;
  Timestamp : Q;
  Hash : string;
  Consumed : bool
}.

Definition set_Consumed (c : bool) (e : Event) : Event :=
  {| Name := Name e; Data := Data e; Timestamp := Timestamp e;
     Hash := Hash e; Consumed := c |}.

Definition raw (e : Event) : string * gmap string value := (Name e, Data e).

Record HashBuffer : Type := mk_buffer {
  release_ : bool;
  events_ : list Event;
  index_ : option nat
}.

Definition with_events (b : HashBuffer) (l : list Event) : HashBuffer :=
  {| release_ := release_ b; events_ := l; index_ := index_ b |}.

Definition with_index (b : HashBuffer) (i : option nat) : HashBuffer :=
  {| release_ := release_ b; events_ := events_ b; index_ := i |}.

Module HashBuffer.

(** [__init__] *)
Definition init (release : bool) : HashBuffer :=
  {| release_ := release; events_ := []; index_ := None |}.

Section Add.
(** [hashlib.md5(str(event)).hexdigest()] is kept abstract. *)
Variable md5 : string -> gmap string value -> string.

Definition add (b : HashBuffer) (event_name : string)
    (event_data : gmap string value) (event_timestamp : Q) : HashBuffer :=
  let mod_event :=
    {| Name := event_name; Data := event_data;
       Timestamp := event_timestamp;
       Hash := md5 event_name event_data; Consumed := false |} in
  {| release_ := release_ b;
     events_ := events_ b ++ [mod_event];
     index_ := match index_ b with None => Some 0%nat | Some i => Some i end |}.

End Add.

(** [current]: [self.index_ >= len(self.events_)] compares [None] with an
    [int] while the cursor is unset, which raises [TypeError]. *)
Definition current (b : HashBuffer) : result (option Event) :=
  match index_ b with
  | None => Raise TypeError
  | Some i =>
      if (length (events_ b) <=? i)%nat then Ok None
      else Ok (events_ b !! i)
  end.

Definition has_next (b : HashBuffer) : bool :=
  match index_ b with
  | None => false
  | Some i => negb (length (events_ b) <=? i)%nat
  end.

Definition next (b : HashBuffer) : HashBuffer :=
  if has_next b then with_index b (S <$> index_ b) else b.

Definition reset_index (b : HashBuffer) : HashBuffer :=
  with_index b (Some 0%nat).

(** [l[k:]] for a Python integer [k]: a negative [k] counts from the end. *)
Definition slice_from {A : Type} (k : Z) (l : list A) : list A :=
  if k <? 0 then drop (Z.to_nat (Z.max (Z.of_nat (length l) + k) 0)) l
  else drop (Z.to_nat k) l.

(** [purge] returns [False] when the request is past the end and [None]
    (no return statement) otherwise. *)
Inductive purge_result : Type := PurgeFalse | PurgeNone.

Definition purge (b : HashBuffer) (ending_index : Z)
    : purge_result * HashBuffer :=
  if Z.of_nat (length (events_ b)) <=? ending_index then (PurgeFalse, b)
  else (PurgeNone,
        reset_index (with_events b (slice_from ending_index (events_ b)))).

Definition get_event_list (b : HashBuffer) : list Event := events_ b.
Definition get_index (b : HashBuffer) : option nat := index_ b.


Definition is_release (b : HashBuffer) : bool := release_ b.

End HashBuffer.

(** ** core/grammar_classes.py *)

(** The four fragment objects of an [Interaction]; each holds one string,
    empty until set. *)
Record Interaction : Type := mk_interaction {
  input_device_ : string;
  input_action_ : string;
  tool_context_ : string;
  action_ : string
}.

(** The members of [GRAMMAR_TYPE] that [type_to_fragment] has an entry
    for. *)
Inductive GRAMMAR_TYPE : Type :=
  | INPUT_DEVICE
  | INPUT_ACTION
  | TOOL_CONTEXT
  | ACTION.

Module Interaction.

Definition init : Interaction :=
  {| input_device_ := ""; input_action_ := "";
     tool_context_ := ""; action_ := "" |}.

(** [set_fragment] with a string fragment and a grammar type (with [None]
    for either it prints and exits; the callers below handle that case
    where it can arise). *)
Definition set_fragment (i : Interaction) (fragment : string)
    (grammar_type : GRAMMAR_TYPE) : Interaction :=
  match grammar_type with
  | INPUT_DEVICE =>
      {| input_device_ := fragment; input_action_ := input_action_ i;
         tool_context_ := tool_context_ i; action_ := action_ i |}
  | INPUT_ACTION =>
      {| input_device_ := input_device_ i; input_action_ := fragment;
         tool_context_ := tool_context_ i; action_ := action_ i |}
  | TOOL_CONTEXT =>
      {| input_device_ := input_device_ i; input_action_ := input_action_ i;
         tool_context_ := fragment; action_ := action_ i |}
  | ACTION =>
      {| input_device_ := input_device_ i; input_action_ := input_action_ i;
         tool_context_ := tool_context_ i; action_ := fragment |}
  end.

Definition set_sentence (input_device input_action tool_context tool_action : string)
    : Interaction :=
  {| input_device_ := input_device; input_action_ := input_action;
     tool_context_ := tool_context; action_ := tool_action |}.

(** [__str__] *)
Definition str (i : Interaction) : string :=
  let grammar_string := input_device_ i +:+ " : " +:+ input_action_ i in
  if negb (String.eqb (tool_context_ i) "") then
    let grammar_string := grammar_string +:+ " > " +:+ tool_context_ i in
    if negb (String.eqb (action_ i) "") then
      grammar_string +:+ " > " +:+ action_ i
    else grammar_string
  else grammar_string.

End Interaction.

(** ** utils/grammar_event.py *)

Record GrammarEvent : Type := mk_grammar_event {
  sentence_ : Interaction;
  inferred_ : bool;
  hash_list_ : list string;
  timestamp_ : Q;
  source_event_ : string * gmap string value
}.

(** ** core/misc.py: static lookup tables *)

(** Sub-component identifier to display name. *)
Definition internal_plugin_to_grammar : gmap string string :=
  list_to_map [
    ("CavaCodeBrowserPlugin", "CodeBrowser : ListingView");
    ("CavaDecompilePlugin", "Decompiler");
    ("CavaFunctionGraphPlugin_ListingPanel", "FunctionGraph");
    ("CavaTaskSequencingPanel_TaskInstructionsTextPane", "TaskInstructions");
    ("CavaTaskSequencingPanel_ActionButton", "TaskInstructions : Button(OK)");
    ("CavaTaskSequencingPanel", "TaskInstructions");
    ("CavaTaskSequencingPanel_TaskResultTextPane", "TaskInstructions");
    ("TaskSurvey_q1r1", "TaskSurveyRadioButton");
    ("TaskSurvey_q1r3", "TaskSurveyRadioButton");
    ("TaskSurvey_q1r2", "TaskSurveyRadioButton");
    ("TaskSurvey_q1r4", "TaskSurveyRadioButton");
    ("TaskSurvey_q1r7", "TaskSurveyRadioButton");
    ("TaskSurvey_q1r6", "TaskSurveyRadioButton");
    ("TaskSurvey_q2r1", "TaskSurveyRadioButton");
    ("TaskSurvey_q2r3", "TaskSurveyRadioButton");
    ("TaskSurvey_q2r2", "TaskSurveyRadioButton");
    ("TaskSurvey_q2r4", "TaskSurveyRadioButton");
    ("TaskSurvey_q2r5", "TaskSurveyRadioButton");
    ("TaskSurvey_q2r6", "TaskSurveyRadioButton");
    ("TaskSurvey_q2r7", "TaskSurveyRadioButton");
    ("TaskSurvey_q3r1", "TaskSurveyRadioButton");
    ("TaskSurvey_q3r2", "TaskSurveyRadioButton");
    ("TaskSurvey_q3r3", "TaskSurveyRadioButton");
    ("TaskSurvey_q3r5", "TaskSurveyRadioButton");
    ("TaskSurvey_q3r7", "TaskSurveyRadioButton");
    ("TaskSurvey_q3r4", "TaskSurveyRadioButton");
    ("TaskSurvey_q3r6", "TaskSurveyRadioButton");
    ("TaskSurvey_q1r5", "TaskSurveyRadioButton");
    ("TaskSurvey_q3Comment", "TaskSurveyCommentWindow");
    ("TaskSurvey_SubmitResponses", "TaskSurveySubmitButton");
    ("CavaFunctionGraphPlugin", "FunctionGraph");
    ("CavaFunctionGraphPlugin_SatelliteGraphViewer", "FunctionGraphSatelliteWindow")
  ].

(** Logical key to printable character. *)
Definition charMapping : gmap string string :=
  list_to_map [
    ("KEY_SPACE", " ");
    ("KEY_APOSTROPHE", "'");
    ("KEY_EQUALS", "=");
    ("KEY_COMMA", ",");
    ("KEY_MINUS", "-");
    ("KEY_PERIOD", ".");
    ("KEY_SLASH", "/");
    ("KEY_SEMICOLON", ";");
    ("KEY_LEFT_BRACKET", "[");
    ("KEY_RIGHT_BRACKET", "]");
    ("KEY_BACKSLASH", "\");
    ("KEY_GRAVE", "`");
    ("KEY_0", "0");
    ("KEY_1", "1");
    ("KEY_2", "2");
    ("KEY_3", "3");
    ("KEY_4", "4");
    ("KEY_5", "5");
    ("KEY_6", "6");
    ("KEY_7", "7");
    ("KEY_8", "8");
    ("KEY_9", "9");
    ("KEY_NUMPAD_0", "0");
    ("KEY_NUMPAD_1", "1");
    ("KEY_NUMPAD_2", "2");
    ("KEY_NUMPAD_3", "3");
    ("KEY_NUMPAD_4", "4");
    ("KEY_NUMPAD_5", "0");
    ("KEY_NUMPAD_6", "6");
    ("KEY_NUMPAD_7", "7");
    ("KEY_NUMPAD_8", "8");
    ("KEY_NUMPAD_9", "9");
    ("KEY_A", "a");
    ("KEY_B", "b");
    ("KEY_C", "c");
    ("KEY_D", "d");
    ("KEY_E", "e");
    ("KEY_F", "f");
    ("KEY_G", "g");
    ("KEY_H", "h");
    ("KEY_I", "i");
    ("KEY_J", "j");
    ("KEY_K", "k");
    ("KEY_L", "l");
    ("KEY_M", "m");
    ("KEY_N", "n");
    ("KEY_O", "o");
    ("KEY_P", "p");
    ("KEY_Q", "q");
    ("KEY_R", "r");
    ("KEY_S", "s");
    ("KEY_T", "t");
    ("KEY_U", "u");
    ("KEY_V", "v");
    ("KEY_W", "w");
    ("KEY_X", "x");
    ("KEY_Y", "y");
    ("KEY_Z", "z")
  ].

(** [table.get(k)] for a key read from a payload: the tables have string
    keys only, so any other scalar has no mapping. *)
Definition table_get (table : gmap string string) (k : value) : option string :=
  match k with
  | VStr s => table !! s
  | _ => None
  end.

(** [table.get(k) + ...]: [None] on the left of [+] raises [TypeError]. *)
Definition table_get_str (table : gmap string string) (k : value) : result string :=
  match table_get table k with
  | Some s => Ok s
  | None => Raise TypeError
  end.

(** ** core/event_converter.py *)

(** [s[:-1]] *)
Fixpoint but_last (s : string) : string :=
  match s with
  | EmptyString => EmptyString
  | String c s' =>
      match s' with
      | EmptyString => EmptyString
      | String _ _ => String c (but_last s')
      end
  end.

(** The result of a policy: [None], or a list of grammar events. *)
Abbreviation statements := (option (list GrammarEvent)).

Module KeyboardEvent.

(** The loop of [get_all_typing_events] from position [i] on; [rest] holds
    the records at positions [i], [i+1], ...  The result lists the positions
    of the records appended to [typing]. *)
Fixpoint typing_loop (last_typed_event : Event) (i : nat) (rest : list Event)
    : list nat :=
  match rest with
  | [] => []
  | event :: rest' =>
      if String.eqb (Name event) "KeyboardEvent" then
        let key_stroke := dget (Data event) "EventName" in
        if py_eq key_stroke (VStr "DOWN") then
          let time_diff := (Timestamp event - Timestamp last_typed_event)%Q in
          if Qltb time_diff (91 # 100) then
            i :: typing_loop event (S i) rest'
          else []
        else typing_loop last_typed_event (S i) rest'
      else typing_loop last_typed_event (S i) rest'
  end.

(** With the cursor at or past the end [buffer.current()] is [None] and the
    range of the loop is empty. *)
Definition get_all_typing_events (b : HashBuffer) : result (list nat) :=
  cur ← HashBuffer.current b;
  match cur, HashBuffer.get_index b with
  | Some last_typed_event, Some index =>
      Ok (typing_loop last_typed_event (S index)
            (drop (S index) (HashBuffer.get_event_list b)))
  | _, _ => Ok []
  end.

(** The loop of [create_typing_string] over the references in [typed];
    [events] is the store the references point into. *)
Fixpoint typing_string_loop (typed : list nat) (typed_string : string)
    (hashes : list string) (events : list Event)
    : string * list string * list Event :=
  match typed with
  | [] => (typed_string, hashes, events)
  | r :: typed' =>
      match events !! r with
      | None => typing_string_loop typed' typed_string hashes events
      | Some event =>
          let key := dget (Data event) "Key" in
          let hashes := (hashes ++ [Hash event]) in
          let events := <[r := set_Consumed true event]> events in
          if py_eq key (VStr "KEY_BACKSPACE") || py_eq key (VStr "KEY_DELETE")
          then typing_string_loop typed' (but_last typed_string) hashes events
          else
            match table_get charMapping key with
            | None => typing_string_loop typed' typed_string hashes events
            | Some transformed =>
                typing_string_loop typed' (typed_string +:+ transformed)
                  hashes events
            end
      end
  end.

Definition create_typing_string (typed : list nat) (events : list Event)
    : string * list string * list Event :=
  typing_string_loop typed "" [] events.

Definition keyboard_sentence (typed_string : string) : Interaction :=
  let interaction := Interaction.init in
  let input_device_fragment := "Keyboard" in
  let input_action_fragment := typed_string in
  let interaction :=
    Interaction.set_fragment interaction input_device_fragment INPUT_DEVICE in
  Interaction.set_fragment interaction input_action_fragment INPUT_ACTION.

Definition parse_event (b : HashBuffer) : result statements * HashBuffer :=
  match HashBuffer.current b, HashBuffer.get_index b with
  | Raise e, _ => (Raise e, b)
  | Ok (Some event), Some index =>
      if Consumed event then (Ok None, b)
      else if py_eq (dget (Data event) "EventName") (VStr "UP") then (Ok None, b)
      else
        match get_all_typing_events b with
        | Raise e => (Raise e, b)
        | Ok [] => (Ok None, b)
        | Ok typed =>
            let typed := index :: typed in
            let '(typed_string, hashes, events) :=
              create_typing_string typed (events_ b) in
            let grammar_event :=
              {| sentence_ := keyboard_sentence typed_string;
                 inferred_ := false;
                 hash_list_ := hashes;
                 timestamp_ := Timestamp event;
                 source_event_ := raw event |} in
            (Ok (Some [grammar_event]), with_events b events)
        end
  | Ok _, _ => (Raise AttributeError, b)
  end.

End KeyboardEvent.

(** [str(v)] for a scalar. *)
Definition py_str (v : value) : string :=
  match v with
  | VNone => "None"
  | VBool true => "True"
  | VBool false => "False"
  | VInt z => pretty z
  | VStr s => s
  end.

(** [str.lower] and [str.capitalize] on ASCII text. *)
Definition lower_ascii (c : ascii) : ascii :=
  let n := nat_of_ascii c in
  if (65 <=? n)%nat && (n <=? 90)%nat then ascii_of_nat (n + 32) else c.

Definition upper_ascii (c : ascii) : ascii :=
  let n := nat_of_ascii c in
  if (97 <=? n)%nat && (n <=? 122)%nat then ascii_of_nat (n - 32) else c.

Fixpoint lower (s : string) : string :=
  match s with
  | EmptyString => EmptyString
  | String c s' => String (lower_ascii c) (lower s')
  end.

Definition capitalize (s : string) : string :=
  match s with
  | EmptyString => EmptyString
  | String c s' => String (upper_ascii c) (lower s')
  end.

(** [v.lower()]: only a string has the method. *)
Definition py_lower (v : value) : result string :=
  match v with
  | VStr s => Ok (lower s)
  | _ => Raise AttributeError
  end.

(** The one-character string holding a double quote. *)
Definition dquote : string := String (ascii_of_nat 34) EmptyString.

(** *** Module-level helpers of event_converter.py *)

(** First loop of [load_field_location_events]: the records after the
    cursor. *)
Fixpoint load_forward (source_event_time : Q) (rest : list Event) : list Event :=
  match rest with
  | [] => []
  | event :: rest' =>
      if String.eqb (Name event) "FieldLocationEvent" then
        event :: load_forward source_event_time rest'
      else
        let diff := (Timestamp event - source_event_time)%Q in
        if Qltb (3 # 2) diff then [] else load_forward source_event_time rest'
  end.

(** Second loop: the records before the cursor, nearest first; each match is
    inserted at the front. *)
Fixpoint load_backward (source_event_time : Q) (rest : list Event)
    (field_location_events : list Event) : list Event :=
  match rest with
  | [] => field_location_events
  | event :: rest' =>
      if String.eqb (Name event) "FieldLocationEvent" then
        load_backward source_event_time rest' (event :: field_location_events)
      else
        let diff := (source_event_time - Timestamp event)%Q in
        if Qltb (3 # 2) diff then field_location_events
        else load_backward source_event_time rest' field_location_events
  end.

Definition load_field_location_events (b : HashBuffer) : result (list Event) :=
  cur ← HashBuffer.current b;
  match cur, HashBuffer.get_index b with
  | Some source, Some index =>
      let event_list := HashBuffer.get_event_list b in
      let source_event_time := Timestamp source in
      let field_location_events :=
        load_forward source_event_time (drop (S index) event_list) in
      Ok (load_backward source_event_time (reverse (take index event_list))
            field_location_events)
  | _, _ => Raise AttributeError
  end.

Fixpoint get_field_from_plugin (field_events : list Event) (plugin_name : value)
    : value * string :=
  match field_events with
  | [] => (VStr "*(unknown)", "")
  | event :: field_events' =>
      let event_data := Data event in
      let event_source := dget event_data "EventSource" in
      if py_eq event_source plugin_name then
        (dget event_data "FieldText", Hash event)
      else get_field_from_plugin field_events' plugin_name
  end.

(** The loop of [get_input_fragments] over the records before the cursor,
    nearest first. *)
Fixpoint input_fragments_loop (src_timestamp : Q) (rest : list Event)
    : result (option (string * string * list string)) :=
  match rest with
  | [] => Ok None
  | mouse_event :: rest' =>
      if String.eqb (Name mouse_event) "MouseEvent" then
        let diff := (src_timestamp - Timestamp mouse_event)%Q in
        if Qltb 1 diff then Ok None
        else if py_eq (dget (Data mouse_event) "EventName") (VStr "CLICK") then
          mouse_button ← py_lower (dget (Data mouse_event) "Button");
          let mouse_button := capitalize mouse_button in
          Ok (Some ("Mouse", mouse_button, [Hash mouse_event]))
        else input_fragments_loop src_timestamp rest'
      else input_fragments_loop src_timestamp rest'
  end.

Definition get_input_fragments (b : HashBuffer)
    : result (option (string * string * list string)) :=
  cur ← HashBuffer.current b;
  match cur, HashBuffer.get_index b with
  | Some source, Some index =>
      input_fragments_loop (Timestamp source)
        (reverse (take index (HashBuffer.get_event_list b)))
  | _, _ => Raise AttributeError
  end.

(** [ClickCount] to the click vocabulary, shared by the mouse policies. *)
Definition click_action (event_count : value) : string :=
  if py_eq event_count (VInt 1) then "Click"
  else if py_eq event_count (VInt 2) then "DoubleClick"
  else "MultipleClicks".

Module MousePressedEvent.

Definition generate_inferred_right_click_events (b : HashBuffer)
    (field : string) (plugin_name : value) : result (list GrammarEvent) :=
  cur ← HashBuffer.current b;
  match cur with
  | None => Raise AttributeError
  | Some event =>
      let hash_list := [Hash event] in
      plugin ← table_get_str internal_plugin_to_grammar plugin_name;
      let right_click_comment := Interaction.init in
      let right_click_relabel := Interaction.init in
      let right_click_comment :=
        Interaction.set_fragment right_click_comment "Mouse" INPUT_DEVICE in
      let right_click_comment :=
        Interaction.set_fragment right_click_comment "Left Click" INPUT_ACTION in
      let right_click_comment :=
        Interaction.set_fragment right_click_comment
          (plugin +:+ " : Field(" +:+ field +:+ ") : "
           +:+ "Context Menu" +:+ " : " +:+ "Set Comment...") TOOL_CONTEXT in
      let right_click_comment :=
        Interaction.set_fragment right_click_comment "Open(CommentPlugin)" ACTION in
      let right_click_relabel :=
        Interaction.set_fragment right_click_relabel "Mouse" INPUT_DEVICE in
      let right_click_relabel :=
        Interaction.set_fragment right_click_relabel "Left Click" INPUT_ACTION in
      let right_click_relabel :=
        Interaction.set_fragment right_click_relabel
          (plugin +:+ " : Field(" +:+ field +:+ ") : "
           +:+ "Context Menu" +:+ " : " +:+ "relabel") TOOL_CONTEXT in
      let right_click_relabel :=
        Interaction.set_fragment right_click_relabel "Open(RelabelPlugin)" ACTION in
      let grammar_event_comment :=
        {| sentence_ := right_click_comment; inferred_ := true;
           hash_list_ := hash_list; timestamp_ := Timestamp event;
           source_event_ := raw event |} in
      let grammar_event_relabel :=
        {| sentence_ := right_click_relabel; inferred_ := true;
           hash_list_ := hash_list; timestamp_ := Timestamp event;
           source_event_ := raw event |} in
      Ok [grammar_event_comment; grammar_event_relabel]
  end.

(** The locals set by the button branch of [parse_event]. *)
Record button_locals : Type := mk_button_locals {
  mouse_button : string;
  tool_context : string;
  tool_action : string;
  hash_from_field : string;
  grammar_statements : list GrammarEvent
}.

Definition plain_button (mouse_button : string) : button_locals :=
  {| mouse_button := mouse_button; tool_context := ""; tool_action := "";
     hash_from_field := ""; grammar_statements := [] |}.

Definition button_branch (b : HashBuffer) (event_data : gmap string value)
    : result button_locals :=
  let event_button := dget event_data "MouseButton" in
  let plugin_name := dget event_data "EventSource" in
  if py_eq event_button (VInt 1) then Ok (plain_button "Left")
  else if py_eq event_button (VInt 2) then Ok (plain_button "Middle")
  else if truthy (dget event_data "IsPopupTrigger") then
    field_events ← load_field_location_events b;
    let '(field, hash_from_field) :=
      get_field_from_plugin field_events plugin_name in
    plugin ← table_get_str internal_plugin_to_grammar plugin_name;
    field ← as_str field;
    let tool_action :=
      plugin +:+ " : Field(" +:+ field +:+ ") : " +:+ "Context Menu" in
    let tool_context := plugin +:+ " : Field(" +:+ field +:+ ")" in
    grammar_statements ←
      generate_inferred_right_click_events b field plugin_name;
    Ok {| mouse_button := "Right"; tool_context := tool_context;
          tool_action := tool_action; hash_from_field := hash_from_field;
          grammar_statements := grammar_statements |}
  else Ok (plain_button "Right").

(** [interaction.set_fragment(None, ...)] prints and calls [exit(1)]. *)
Definition parse_event (b : HashBuffer) : result statements :=
  cur ← HashBuffer.current b;
  match cur with
  | None => Raise AttributeError
  | Some event =>
      let event_data := Data event in
      let event_count := dget event_data "ClickCount" in
      let plugin_name := dget event_data "EventSource" in
      locals ← button_branch b event_data;
      let mouse_action := click_action event_count in
      let input_device := "Mouse" in
      let input_action := mouse_button locals +:+ " " +:+ mouse_action in
      tool_context ←
        (if String.eqb (tool_context locals) "" then
           match table_get internal_plugin_to_grammar plugin_name with
           | Some s => Ok s
           | None => Raise SystemExit
           end
         else Ok (tool_context locals));
      let hash_list := [Hash event] in
      let tool_action := tool_action locals in
      let interaction := Interaction.init in
      let interaction :=
        Interaction.set_fragment interaction input_device INPUT_DEVICE in
      let interaction :=
        Interaction.set_fragment interaction input_action INPUT_ACTION in
      let interaction :=
        Interaction.set_fragment interaction tool_context TOOL_CONTEXT in
      let '(interaction, hash_list) :=
        if negb (String.eqb tool_action "")
        then (Interaction.set_fragment interaction tool_action ACTION,
              hash_list ++ [hash_from_field locals])
        else (interaction, hash_list) in
      let grammar_event_core :=
        {| sentence_ := interaction; inferred_ := false;
           hash_list_ := hash_list; timestamp_ := Timestamp event;
           source_event_ := raw event |} in
      Ok (Some (grammar_event_core :: grammar_statements locals))
  end.

End MousePressedEvent.

Module GhidraProgramActivatedEvent.

Definition program_tab (program_name : string) : string :=
  "CodeBrowser" +:+ " : " +:+ " ProgramTab(" +:+ dquote +:+ program_name
  +:+ dquote +:+ ")".

Definition ghidra_load (program_name : string) : string :=
  "Ghidra load " +:+ dquote +:+ program_name +:+ dquote.

Definition inferred_program_activated_events (b : HashBuffer)
    : result (list GrammarEvent) :=
  cur ← HashBuffer.current b;
  match cur with
  | None => Raise AttributeError
  | Some event =>
      program_name ← as_str (dget (Data event) "ProgramName");
      let tool_context := program_tab program_name in
      let tool_action := ghidra_load program_name in
      let inferred_left_click :=
        Interaction.set_sentence "Mouse" "Left Click" tool_context tool_action in
      let inferred_middle_click :=
        Interaction.set_sentence "Mouse" "Middle Click" tool_context tool_action in
      let hash_list := [Hash event] in
      let grammar_event_left :=
        {| sentence_ := inferred_left_click; inferred_ := true;
           hash_list_ := hash_list; timestamp_ := Timestamp event;
           source_event_ := raw event |} in
      let grammar_event_middle :=
        {| sentence_ := inferred_middle_click; inferred_ := true;
           hash_list_ := hash_list; timestamp_ := Timestamp event;
           source_event_ := raw event |} in
      Ok [grammar_event_left; grammar_event_middle]
  end.

Definition parse_event (b : HashBuffer) : result statements :=
  cur ← HashBuffer.current b;
  match cur with
  | None => Raise AttributeError
  | Some event =>
      let event_data := Data event in
      let program_name := dget event_data "ProgramName" in
      if is_None program_name then Ok None
      else
        fragments ← get_input_fragments b;
        match fragments with
        | None => Some <$> inferred_program_activated_events b
        | Some (input_device, input_action, hash_list) =>
            program_name ← as_str program_name;
            let tool_context := program_tab program_name in
            let tool_action := ghidra_load program_name in
            let interaction :=
              Interaction.set_sentence input_device input_action
                tool_context tool_action in
            let hash_list := Hash event :: hash_list in
            let grammar_event :=
              {| sentence_ := interaction; inferred_ := false;
                 hash_list_ := hash_list; timestamp_ := Timestamp event;
                 source_event_ := raw event |} in
            Ok (Some [grammar_event])
        end
  end.

End GhidraProgramActivatedEvent.

Module VerticalScrollbarAdjustmentEvent.

(** The loop of [consume_scroll_events] from position [i] on; [rest] holds
    the records at positions [i], [i+1], ... and [events] is the store in
    which accepted records are marked consumed. *)
Fixpoint consume_loop (last_scroll_event : Event) (i : nat) (rest : list Event)
    (hash_list : list string) (events : list Event)
    : Event * list string * list Event :=
  match rest with
  | [] => (last_scroll_event, hash_list, events)
  | event :: rest' =>
      if String.eqb (Name event) "VerticalScrollbarAdjustmentEvent" then
        if py_eq (dget (Data event) "EventSource")
                 (dget (Data last_scroll_event) "EventSource") then
          let time_diff := (Timestamp event - Timestamp last_scroll_event)%Q in
          if Qltb time_diff 5 then
            let event := set_Consumed true event in
            consume_loop event (S i) rest'
              (hash_list ++ [Hash event]) (<[i := event]> events)
          else (last_scroll_event, hash_list, events)
        else consume_loop last_scroll_event (S i) rest' hash_list events
      else consume_loop last_scroll_event (S i) rest' hash_list events
  end.

(** With the cursor at or past the end [buffer.current()] is [None] and the
    range of the loop is empty. *)
Definition consume_scroll_events (b : HashBuffer)
    : result (option Event * list string * HashBuffer) :=
  cur ← HashBuffer.current b;
  match cur, HashBuffer.get_index b with
  | Some last_scroll_event, Some index =>
      let event_frame := HashBuffer.get_event_list b in
      let '(last_scroll_event, hash_list, events) :=
        consume_loop last_scroll_event (S index) (drop (S index) event_frame)
          [] event_frame in
      Ok (Some last_scroll_event, hash_list, with_events b events)
  | _, _ => Ok (None, [], b)
  end.

Definition generate_inferred_statements (event : Event)
    (tool_context tool_action : string) (hash_list : list string)
    : list GrammarEvent :=
  let inferred_drag :=
    Interaction.set_sentence "Mouse" "Drag" tool_context tool_action in
  let inferred_left_click :=
    Interaction.set_sentence "Mouse" "Left Click" tool_context tool_action in
  let inferred_mouse_wheel_up :=
    Interaction.set_sentence "Mouse" "MouseWheel Up" tool_context tool_action in
  let inferred_mouse_wheel_down :=
    Interaction.set_sentence "Mouse" "MouseWheel Down" tool_context tool_action in
  let grammar_event (sentence : Interaction) :=
    {| sentence_ := sentence; inferred_ := true; hash_list_ := hash_list;
       timestamp_ := Timestamp event; source_event_ := raw event |} in
  [grammar_event inferred_left_click; grammar_event inferred_mouse_wheel_up;
   grammar_event inferred_mouse_wheel_down; grammar_event inferred_drag].

(** The statements built once the run is long enough. *)
Definition build_statements (event : Event) (last_scroll_event : option Event)
    (hash_list : list string) : result statements :=
  let event_data := Data event in
  let hash_list := Hash event :: hash_list in
  plugin ← table_get_str internal_plugin_to_grammar (dget event_data "EventSource");
  let tool_context :=
    plugin +:+ " : " +:+ "ScrollbarLocation" +:+ "["
    +:+ py_str (dget event_data "ScrollbarLocation") +:+ "]" in
  match last_scroll_event with
  | None => Raise AttributeError
  | Some last_scroll_event =>
      let tool_action_scroll_position :=
        "ScrollbarLocation" +:+ "["
        +:+ py_str (dget (Data last_scroll_event) "ScrollbarLocation") +:+ "]" in
      plugin ← table_get_str internal_plugin_to_grammar (dget event_data "EventSource");
      let tool_action := plugin +:+ " : " +:+ tool_action_scroll_position in
      Ok (Some (generate_inferred_statements event tool_context tool_action hash_list))
  end.

Definition parse_event (b : HashBuffer) : result statements * HashBuffer :=
  match HashBuffer.current b with
  | Raise e => (Raise e, b)
  | Ok None => (Raise AttributeError, b)
  | Ok (Some event) =>
      if Consumed event then (Ok None, b)
      else
        match consume_scroll_events b with
        | Raise e => (Raise e, b)
        | Ok (last_scroll_event, hash_list, b') =>
            if (length hash_list <? 2)%nat then (Ok None, b')
            else (build_statements event last_scroll_event hash_list, b')
        end
  end.

End VerticalScrollbarAdjustmentEvent.

(** ** core/misc.py: scan codes *)

(** [keyboard_scan_code_mapping]; a [KeyboardKey] member is given by its
    [value], the string that [FieldInputEvent] prints. *)
Definition keyboard_scan_code_mapping : gmap Z string :=
  list_to_map [
    (65307, "KEY_ESCAPE");
    (65470, "KEY_F1");
    (65471, "KEY_F2");
    (65472, "KEY_F3");
    (65473, "KEY_F4");
    (65474, "KEY_F5");
    (65475, "KEY_F6");
    (65476, "KEY_F7");
    (65477, "KEY_F8");
    (65478, "KEY_F9");
    (65479, "KEY_F10");
    (65480, "KEY_F11");
    (65481, "KEY_F12");
    (65377, "KEY_PRINT_SCREEN");
    (65300, "KEY_SCROLL_LOCK");
    (65299, "KEY_PAUSE");
    (96, "KEY_GRAVE");
    (49, "KEY_1");
    (50, "KEY_2");
    (51, "KEY_3");
    (52, "KEY_4");
    (53, "KEY_5");
    (54, "KEY_6");
    (55, "KEY_7");
    (56, "KEY_8");
    (57, "KEY_9");
    (48, "KEY_0");
    (45, "KEY_MINUS");
    (61, "KEY_EQUALS");
    (65288, "KEY_BACKSPACE");
    (65379, "KEY_INSERT");
    (65360, "KEY_HOME");
    (65365, "KEY_PAGE_UP");
    (65407, "KEY_NUMLOCK");
    (65455, "KEY_NUMPAD_DIVIDE");
    (65450, "KEY_NUMPAD_MULTIPLY");
    (65453, "KEY_NUMPAD_SUBTRACT");
    (65289, "KEY_TAB");
    (113, "KEY_Q");
    (119, "KEY_W");
    (101, "KEY_E");
    (114, "KEY_R");
    (116, "KEY_T");
    (121, "KEY_Y");
    (117, "KEY_U");
    (105, "KEY_I");
    (111, "KEY_O");
    (112, "KEY_P");
    (91, "KEY_LEFT_BRACKET");
    (93, "KEY_RIGHT_BRACKET");
    (92, "KEY_BACKSLASH");
    (65535, "KEY_DELETE");
    (65367, "KEY_END");
    (65366, "KEY_PAGE_DOWN");
    (65429, "KEY_NUMPAD_7");
    (65431, "KEY_NUMPAD_8");
    (65434, "KEY_NUMPAD_9");
    (65451, "KEY_NUMPAD_ADD");
    (65509, "KEY_CAPSLOCK");
    (97, "KEY_A");
    (115, "KEY_S");
    (100, "KEY_D");
    (102, "KEY_F");
    (103, "KEY_G");
    (104, "KEY_H");
    (106, "KEY_J");
    (107, "KEY_K");
    (108, "KEY_L");
    (59, "KEY_SEMICOLON");
    (39, "KEY_APOSTROPHE");
    (65293, "KEY_RETURN");
    (65430, "KEY_NUMPAD_4");
    (65437, "KEY_NUMPAD_5");
    (65432, "KEY_NUMPAD_6");
    (65505, "KEY_LEFT_SHIFT");
    (122, "KEY_Z");
    (120, "KEY_X");
    (99, "KEY_C");
    (118, "KEY_V");
    (98, "KEY_B");
    (110, "KEY_N");
    (109, "KEY_M");
    (44, "KEY_COMMA");
    (46, "KEY_PERIOD");
    (47, "KEY_SLASH");
    (65506, "KEY_RIGHT_SHIFT");
    (65362, "KEY_UP");
    (65436, "KEY_NUMPAD_1");
    (65433, "KEY_NUMPAD_2");
    (65435, "KEY_NUMPAD_3");
    (65421, "KEY_NUMPAD_RETURN");
    (65507, "KEY_LEFT_CTRL");
    (65513, "KEY_LEFT_ALT");
    (32, "KEY_SPACE");
    (65514, "KEY_RIGHT_ALT");
    (65508, "KEY_RIGHT_CTRL");
    (65361, "KEY_LEFT");
    (65364, "KEY_DOWN");
    (65363, "KEY_RIGHT");
    (65438, "KEY_NUMPAD_0");
    (65439, "KEY_NUMPAD_DECIMAL");
    (65515, "KEY_LEFT_SUPER");
    (65516, "KEY_RIGHT_SUPER");
    (33, "KEY_1");
    (34, "KEY_APOSTROPHE");
    (35, "KEY_3");
    (36, "KEY_4");
    (37, "KEY_5");
    (38, "KEY_7");
    (40, "KEY_9");
    (41, "KEY_0");
    (42, "KEY_8");
    (43, "KEY_EQUALS");
    (58, "KEY_SEMICOLON");
    (60, "KEY_COMMA");
    (62, "KEY_PERIOD");
    (63, "KEY_SLASH");
    (64, "KEY_2");
    (65, "KEY_A");
    (66, "KEY_B");
    (67, "KEY_C");
    (68, "KEY_D");
    (69, "KEY_E");
    (70, "KEY_F");
    (71, "KEY_G");
    (72, "KEY_H");
    (73, "KEY_I");
    (74, "KEY_J");
    (75, "KEY_K");
    (76, "KEY_L");
    (77, "KEY_M");
    (78, "KEY_N");
    (79, "KEY_O");
    (80, "KEY_P");
    (81, "KEY_Q");
    (82, "KEY_R");
    (83, "KEY_S");
    (84, "KEY_T");
    (85, "KEY_U");
    (86, "KEY_V");
    (87, "KEY_W");
    (88, "KEY_X");
    (89, "KEY_Y");
    (90, "KEY_Z");
    (94, "KEY_6");
    (95, "KEY_MINUS");
    (123, "KEY_LEFT_BRACKET");
    (124, "KEY_BACKSLASH");
    (125, "KEY_RIGHT_BRACKET");
    (126, "KEY_GRAVE");
    (65056, "KEY_TAB");
    (65511, "KEY_LEFT_ALT");
    (65512, "KEY_RIGHT_ALT")
  ].

(** [keyboard_scan_code_mapping.get(k)]: the keys are integers, and a
    Boolean hashes and compares as 0 or 1. *)
Definition scan_code_get (k : value) : option string :=
  match as_int k with
  | Some z => keyboard_scan_code_mapping !! z
  | None => None
  end.

(** ** core/event_converter.py: the other policies *)

(** [EventType] to the click vocabulary of the header and window policies. *)
Definition click_type_action (event_type : value) : string :=
  if py_eq event_type (VStr "LeftClick") then "Left Click"
  else if py_eq event_type (VStr "RightClick") then "Right Click"
  else if py_eq event_type (VStr "MiddleClick") then "Middle PressDown"
  else "Move".

(** A payload value handed to [set_fragment]: with [None] the call prints
    and exits; a scalar that is not a string is stored as it is and the
    sentence then fails with [TypeError] when rendered, which is modelled
    as failing here. *)
Definition as_fragment (v : value) : result string :=
  match v with
  | VStr s => Ok s
  | VNone => Raise SystemExit
  | _ => Raise TypeError
  end.

(** [MouseButton] to the button vocabulary of the field policies. *)
Definition button_name (event_button : value) : string :=
  if py_eq event_button (VInt 1) then "Left"
  else if py_eq event_button (VInt 2) then "Middle"
  else "Right".

(** [GrammarEvent(sentence, inferred=False, hash_list, timestamp, source)]
    for the record [event]. *)
Definition observed_event (event : Event) (sentence : Interaction)
    (hash_list : list string) : GrammarEvent :=
  {| sentence_ := sentence; inferred_ := false; hash_list_ := hash_list;
     timestamp_ := Timestamp event; source_event_ := raw event |}.

(** An [Interaction] after [set_fragment] of device, action and context. *)
Definition three_fragments (input_device input_action tool_context : string)
    : Interaction :=
  let interaction := Interaction.init in
  let interaction :=
    Interaction.set_fragment interaction input_device INPUT_DEVICE in
  let interaction :=
    Interaction.set_fragment interaction input_action INPUT_ACTION in
  Interaction.set_fragment interaction tool_context TOOL_CONTEXT.

Module HeaderEvent.

(** A menu or submenu item that is neither absent nor a string makes one of
    the concatenations below raise [TypeError]. *)
Definition parse_event (b : HashBuffer) : result statements :=
  cur ← HashBuffer.current b;
  match cur with
  | None => Raise AttributeError
  | Some header_event =>
      let header_data := Data header_event in
      let header := dget header_data "Header" in
      let header_event_type := dget header_data "EventType" in
      let header_menu_item := dget header_data "MenuItem" in
      let header_submenu_item := dget header_data "SubMenuItem" in
      let input_device_fragment := "Mouse" in
      let input_action_fragment := click_type_action header_event_type in
      let header_menu_item :=
        if is_None header_menu_item then VStr "" else header_menu_item in
      let header_submenu_item :=
        if is_None header_submenu_item then VStr "" else header_submenu_item in
      header_meta_data ←
        (if negb (py_eq header_menu_item (VStr "")) then
           menu ← as_str header_menu_item;
           if negb (py_eq header_submenu_item (VStr "")) then
             submenu ← as_str header_submenu_item;
             Ok (menu +:+ " : " +:+ submenu)
           else Ok menu
         else Ok "");
      header ← as_str header;
      let tool_context_fragment := "Toolbar : " +:+ header in
      let tool_context_fragment :=
        if negb (String.eqb header_meta_data "")
        then tool_context_fragment +:+ " : " +:+ header_meta_data
        else tool_context_fragment in
      let interaction :=
        three_fragments input_device_fragment input_action_fragment
          tool_context_fragment in
      Ok (Some [observed_event header_event interaction [Hash header_event]])
  end.

End HeaderEvent.

Module WindowEvent.

(** [create_mouse_entry_sentence]: the record, at position [index], is
    marked before the fragments are set. *)
Definition create_mouse_entry_sentence (b : HashBuffer) (index : nat)
    (event : Event) : result statements * HashBuffer :=
  let window_event_data := Data event in
  let b := with_events b (<[index := set_Consumed true event]> (events_ b)) in
  let event := set_Consumed true event in
  (tool_context ← as_fragment (dget window_event_data "WindowName");
   let interaction := three_fragments "Mouse" "Move : Enter" tool_context in
   Ok (Some [observed_event event interaction [Hash event]]),
   b).

Definition create_mouse_exit_sentence (b : HashBuffer) (index : nat)
    (event : Event) : result statements * HashBuffer :=
  let b := with_events b (<[index := set_Consumed true event]> (events_ b)) in
  let event := set_Consumed true event in
  let window_event_data := Data event in
  (tool_context ← as_fragment (dget window_event_data "WindowName");
   let interaction := three_fragments "Mouse" "Move : Exit" tool_context in
   Ok (Some [observed_event event interaction [Hash event]]),
   b).

Definition create_mouse_click_sentence (event : Event) : result statements :=
  let window_event_data := Data event in
  let event_type := dget window_event_data "EventType" in
  let event_source := dget window_event_data "WindowName" in
  let input_device_fragment := "Mouse" in
  let input_action_fragment := click_type_action event_type in
  tool_context_fragment ← as_fragment event_source;
  let interaction :=
    three_fragments input_device_fragment input_action_fragment
      tool_context_fragment in
  Ok (Some [observed_event event interaction [Hash event]]).

Definition parse_event (b : HashBuffer) : result statements * HashBuffer :=
  match HashBuffer.current b, HashBuffer.get_index b with
  | Raise e, _ => (Raise e, b)
  | Ok (Some event), Some index =>
      if Consumed event then (Ok None, b)
      else
        let event_type := dget (Data event) "EventType" in
        if py_eq event_type (VStr "MouseEntry") then
          create_mouse_entry_sentence b index event
        else if py_eq event_type (VStr "MouseExit") then
          create_mouse_exit_sentence b index event
        else (create_mouse_click_sentence event, b)
  | Ok _, _ => (Raise AttributeError, b)
  end.

End WindowEvent.

Module FieldMouseEvent.

(** [selection_changed[k] = v] on a dictionary kept in insertion order: an
    existing key keeps its place (and its key object) and takes the new
    value. *)
Fixpoint dict_set (d : list (value * Event)) (k : value) (v : Event)
    : list (value * Event) :=
  match d with
  | [] => [(k, v)]
  | (k', v') :: d' =>
      if py_eq k' k then (k', v) :: d' else (k', v') :: dict_set d' k v
  end.

(** The first loop of [create_left_click_tool_action_fragment]. *)
Fixpoint select_loop (field_location_events : list Event)
    (selection_changed : list (value * Event)) : list (value * Event) :=
  match field_location_events with
  | [] => selection_changed
  | field_event :: rest =>
      if Consumed field_event then select_loop rest selection_changed
      else
        let field_event_data := Data field_event in
        let plugin_name := dget field_event_data "EventSource" in
        select_loop rest (dict_set selection_changed plugin_name field_event)
  end.

(** The second loop, over [selection_changed.items()]. *)
Fixpoint tool_action_loop (items : list (value * Event)) (tool_action : string)
    (hash_list : list string) : result (string * list string) :=
  match items with
  | [] => Ok (tool_action, hash_list)
  | (plugin_name, field_event) :: items' =>
      let mod_ := if String.eqb tool_action "" then "" else " && " in
      let hash_list := hash_list ++ [Hash field_event] in
      let tool_action_field := dget (Data field_event) "FieldText" in
      plugin ← table_get_str internal_plugin_to_grammar plugin_name;
      field ← as_str tool_action_field;
      tool_action_loop items'
        (tool_action +:+ mod_ +:+ plugin +:+ " : SelectionChanged : "
         +:+ "Field(" +:+ field +:+ ")")
        hash_list
  end.

Definition create_left_click_tool_action_fragment (b : HashBuffer)
    (mouse_action : string) : result (string * list string) :=
  field_location_events ← load_field_location_events b;
  let field_location_events :=
    if String.eqb mouse_action "Click" then reverse field_location_events
    else field_location_events in
  let selection_changed := select_loop field_location_events [] in
  tool_action_loop selection_changed "" [].

Definition create_mouse_wheel_click_tool_action_fragment (b : HashBuffer)
    : result string :=
  cur ← HashBuffer.current b;
  match cur with
  | None => Raise AttributeError
  | Some event =>
      let event_data := Data event in
      plugin ← table_get_str internal_plugin_to_grammar
                 (dget event_data "EventSource");
      field ← as_str (dget event_data "FieldText");
      Ok (plugin +:+ " : " +:+ " SetHighlight(" +:+ field +:+ ")")
  end.

Definition parse_event (b : HashBuffer) : result statements :=
  cur ← HashBuffer.current b;
  match cur with
  | None => Raise AttributeError
  | Some event =>
      let event_data := Data event in
      let plugin_name := dget event_data "EventSource" in
      let field := dget event_data "FieldText" in
      let event_button := dget event_data "MouseButton" in
      let event_count := dget event_data "ClickCount" in
      let mouse_button := button_name event_button in
      let mouse_action := click_action event_count in
      let input_device := "Mouse" in
      let input_action := mouse_button +:+ " " +:+ mouse_action in
      plugin ← table_get_str internal_plugin_to_grammar plugin_name;
      field ← as_str field;
      let tool_context := plugin +:+ " : " +:+ "Field(" +:+ field +:+ ")" in
      let interaction := three_fragments input_device input_action tool_context in
      '(tool_action, hash_list) ←
        (if String.eqb mouse_button "Left" then
           create_left_click_tool_action_fragment b mouse_action
         else if String.eqb mouse_button "Middle" then
           tool_action ← create_mouse_wheel_click_tool_action_fragment b;
           Ok (tool_action, [])
         else Ok ("", []));
      let interaction :=
        if negb (String.eqb tool_action "")
        then Interaction.set_fragment interaction tool_action ACTION
        else interaction in
      let hash_list := hash_list ++ [Hash event] in
      Ok (Some [observed_event event interaction hash_list])
  end.

End FieldMouseEvent.

Module FieldInputEvent.

(** [flag is True] *)
Definition is_True (v : value) : bool :=
  match v with
  | VBool true => true
  | _ => false
  end.

Definition parse_event (b : HashBuffer) : result statements :=
  cur ← HashBuffer.current b;
  match cur with
  | None => Raise AttributeError
  | Some event =>
      let event_data := Data event in
      let event_source := dget event_data "EventSource" in
      let is_ctrl_pressed := dget event_data "CtrlDown" in
      let is_shift_pressed := dget event_data "ShiftDown" in
      let field := dget event_data "FieldText" in
      let is_alt_pressed := dget event_data "AltDown" in
      let hash_list := [Hash event] in
      let key_code := dget event_data "KeyCode" in
      match scan_code_get key_code with
      | None => Ok None
      | Some key_pressed =>
          let keys_pressed := "" in
          let keys_pressed :=
            if is_True is_ctrl_pressed then keys_pressed +:+ "CTRL "
            else keys_pressed in
          let keys_pressed :=
            if is_True is_shift_pressed then keys_pressed +:+ "SHIFT "
            else keys_pressed in
          let keys_pressed :=
            if is_True is_alt_pressed then keys_pressed +:+ "ALT "
            else keys_pressed in
          let keys_pressed := keys_pressed +:+ key_pressed +:+ " " in
          let input_device := "Keyboard" in
          let input_action := keys_pressed in
          plugin ← table_get_str internal_plugin_to_grammar event_source;
          field ← as_str field;
          let tool_context :=
            plugin +:+ " : " +:+ "Field(" +:+ field +:+ ")" in
          let interaction :=
            three_fragments input_device input_action tool_context in
          Ok (Some [observed_event event interaction hash_list])
      end
  end.

End FieldInputEvent.

(** [MouseEnteredEvent] and [MouseExitedEvent] differ in the action
    fragment only. *)
Definition mouse_crossing_parse_event (input_action : string) (b : HashBuffer)
    : result statements :=
  cur ← HashBuffer.current b;
  match cur with
  | None => Raise AttributeError
  | Some event =>
      let event_data := Data event in
      let plugin_name := dget event_data "EventSource" in
      let hash_list := [Hash event] in
      let input_device := "Mouse" in
      tool_context ←
        match table_get internal_plugin_to_grammar plugin_name with
        | Some s => Ok s
        | None => Raise SystemExit
        end;
      let interaction := three_fragments input_device input_action tool_context in
      Ok (Some [observed_event event interaction hash_list])
  end.

Module MouseEnteredEvent.
Definition parse_event : HashBuffer -> result statements :=
  mouse_crossing_parse_event "Move : Enter".
End MouseEnteredEvent.

Module MouseExitedEvent.
Definition parse_event : HashBuffer -> result statements :=
  mouse_crossing_parse_event "Move : Exit".
End MouseExitedEvent.

Module EventParser.

(** The dispatch on [buffer.current().get("Name")]; a name without a branch
    falls off the end of the function, which returns [None]. *)
Definition parse_event (b : HashBuffer) : result statements * HashBuffer :=
  match HashBuffer.current b with
  | Raise e => (Raise e, b)
  | Ok None => (Raise AttributeError, b)
  | Ok (Some event) =>
      let event_name := Name event in
      if String.eqb event_name "KeyboardEvent" then
        KeyboardEvent.parse_event b
      else if String.eqb event_name "HeaderEvent" then
        (HeaderEvent.parse_event b, b)
      else if String.eqb event_name "WindowEvent" then
        WindowEvent.parse_event b
      else if String.eqb event_name "FieldMouseEvent" then
        (FieldMouseEvent.parse_event b, b)
      else if String.eqb event_name "MousePressedEvent" then
        (MousePressedEvent.parse_event b, b)
      else if String.eqb event_name "FieldInputEvent" then
        (FieldInputEvent.parse_event b, b)
      else if String.eqb event_name "GhidraProgramActivatedEvent" then
        (GhidraProgramActivatedEvent.parse_event b, b)
      else if String.eqb event_name "VerticalScrollbarAdjustmentEvent" then
        VerticalScrollbarAdjustmentEvent.parse_event b
      else if String.eqb event_name "MouseEnteredEvent" then
        (MouseEnteredEvent.parse_event b, b)
      else if String.eqb event_name "MouseExitedEvent" then
        (MouseExitedEvent.parse_event b, b)
      else (Ok None, b)
  end.

End EventParser.

(** ** cava-gen.py *)

(** How a run of the driver ends early: a policy raised, the time frame of
    an empty buffer was asked for, or the model's loop bound was reached. *)
Inductive stop : Type :=
  | Raised (e : exn)
  | RaisedIndexError
  | NoFuel.

(** One raw telemetry entry [{name: data}] with its timestamp. *)
Record entry : Type := mk_entry {
  entry_name : string;
  entry_data : gmap string value;
  entry_timestamp : Q
}.

Module CavaGen.

(** The loop [while buffer.has_next(): ...] of [generate_grammar_statements],
    bounded by [fuel] iterations. *)
Fixpoint drain (fuel : nat) (b : HashBuffer) (grammar_events : list GrammarEvent)
    : option stop * list GrammarEvent * HashBuffer :=
  if HashBuffer.has_next b then
    match fuel with
    | O => (Some NoFuel, grammar_events, b)
    | S fuel' =>
        match EventParser.parse_event b with
        | (Raise e, b) => (Some (Raised e), grammar_events, b)
        | (Ok grammar_statements, b) =>
            let b := HashBuffer.next b in
            let grammar_events :=
              match grammar_statements with
              | Some grammar_statements => grammar_events ++ grammar_statements
              | None => grammar_events
              end in
            drain fuel' b grammar_events
        end
    end
  else (None, grammar_events, b).

(** The loop with a bound that always suffices: every iteration advances
    the cursor. *)
Definition drain_all (b : HashBuffer) (grammar_events : list GrammarEvent)
    : option stop * list GrammarEvent * HashBuffer :=
  drain (length (events_ b)) b grammar_events.

Section Generate.
Variable md5 : string -> gmap string value -> string.
Variable release : bool.
Variable buffer_size : Q.



End Generate.

End CavaGen.

(** ** utils/buffer.py *)

(** The functions of this file work on a list of tuples whose first
    component is a raw entry [{name: data}]; they read its timestamp only.
    An index error is the result [None]. *)

(** [l[i]] for a Python integer [i]: a negative [i] counts from the end. *)
Definition py_index {A : Type} (l : list A) (i : Z) : option A :=
  if 0 <=? i then l !! Z.to_nat i
  else if - Z.of_nat (length l) <=? i then l !! Z.to_nat (Z.of_nat (length l) + i)
  else None.

(** [n] consecutive integers upwards from [a], and downwards from [a]. *)
Fixpoint range_up (a : Z) (n : nat) : list Z :=
  match n with
  | O => []
  | S n' => a :: range_up (a + 1) n'
  end.

Fixpoint range_down (a : Z) (n : nat) : list Z :=
  match n with
  | O => []
  | S n' => a :: range_down (a - 1) n'
  end.

(** [range(a, b)] and [reversed(range(b))]. *)
Definition py_range (a b : Z) : list Z := range_up a (Z.to_nat (b - a)).

Definition py_reversed_range (b : Z) : list Z := range_down (b - 1) (Z.to_nat b).

(** [l[a:b]]: the bounds are clamped to the list. *)
Definition slice_bound (len : nat) (k : Z) : nat :=
  if k <? 0 then Z.to_nat (Z.max (Z.of_nat len + k) 0)
  else Nat.min (Z.to_nat k) len.

Definition py_slice {A : Type} (l : list A) (a b : Z) : list A :=
  let lo := slice_bound (length l) a in
  let hi := slice_bound (length l) b in
  take (hi - lo) (drop lo l).

Module Buffer.

Section Frames.
Context {A : Type}.

(** The loop of [find_last_frame_event]. *)
Fixpoint last_frame_loop (event_list : list (entry * A)) (end_time : Q)
    (indices : list Z) (end_ : Z) : option Z :=
  match indices with
  | [] => Some end_
  | index :: indices' =>
      match py_index event_list index with
      | None => None
      | Some (event, _) =>
          let curr_time := entry_timestamp event in
          if Qltb curr_time end_time then
            last_frame_loop event_list end_time indices' (end_ + 1)
          else Some end_
      end
  end.

Definition find_last_frame_event (event_list : list (entry * A)) (start : Z)
    (frame_size : Q) : option Z :=
  match py_index event_list start with
  | None => None
  | Some (initial_event, _) =>
      let initial_time := entry_timestamp initial_event in
      let end_time := (initial_time + frame_size)%Q in
      let end_ := start in
      last_frame_loop event_list end_time
        (py_range (start + 1) (Z.of_nat (length event_list))) end_
  end.

(** The loop of [find_first_frame_event]. *)
Fixpoint first_frame_loop (event_list : list (entry * A)) (new_start_time : Q)
    (indices : list Z) : option Z :=
  match indices with
  | [] => Some 0
  | index :: indices' =>
      match py_index event_list index with
      | None => None
      | Some (event, _) =>
          let curr_time := entry_timestamp event in
          if Qltb curr_time new_start_time then Some (index + 1)
          else first_frame_loop event_list new_start_time indices'
      end
  end.

Definition find_first_frame_event (event_list : list (entry * A)) (start : Z)
    (res : Q) : option Z :=
  if start <=? 0 then Some start
  else
    match py_index event_list start with
    | None => None
    | Some (first_new_event, _) =>
        let time := entry_timestamp first_new_event in
        let new_start_time := (time - res)%Q in
        first_frame_loop event_list new_start_time
          (py_reversed_range (start + 1))
    end.

Definition get_frame (event_list : list (entry * A)) (start : Z)
    (frame_size res : Q) : option (list (entry * A) * Z) :=
  match find_first_frame_event event_list start res with
  | None => None
  | Some mod_start =>
      match find_last_frame_event event_list mod_start frame_size with
      | None => None
      | Some end_ =>
          let frame := py_slice event_list mod_start (end_ + 1) in
          Some (frame, mod_start)
      end
  end.

End Frames.

End Buffer.

(** ** Vocabulary of the properties *)

(** The positions [i], [i+1], ... of the records of [rest] that satisfy [p],
    in buffer order. *)
Fixpoint positions_where (p : Event -> bool) (i : nat) (rest : list Event)
    : list nat :=
  match rest with
  | [] => []
  | ev :: rest' =>
      if p ev then i :: positions_where p (S i) rest'
      else positions_where p (S i) rest'
  end.

Definition positions_after (p : Event -> bool) (events : list Event)
    (index : nat) : list nat :=
  positions_where p (S index) (drop (S index) events).

(** A run of positions in which every record comes less than [window]
    seconds after the previously accepted one, the first after [last]. *)
Fixpoint chained (events : list Event) (window last : Q) (run : list nat)
    : Prop :=
  match run with
  | [] => True
  | i :: run' =>
      exists ev, events !! i = Some ev /\
                 (Timestamp ev - last < window)%Q /\
                 chained events window (Timestamp ev) run'
  end.

(** The timestamp of the last record of a run that starts after [last]. *)
Fixpoint last_time (events : list Event) (last : Q) (run : list nat) : Q :=
  match run with
  | [] => last
  | i :: run' =>
      last_time events (from_option Timestamp last (events !! i)) run'
  end.

(** The store after every record of [run] has been marked consumed. *)
Fixpoint mark_consumed (run : list nat) (events : list Event) : list Event :=
  match run with
  | [] => events
  | r :: run' => mark_consumed run' (alter (set_Consumed true) r events)
  end.

Definition keys_of (events : list Event) (run : list nat) : list value :=
  omap (fun r => (fun ev => dget (Data ev) "Key") <$> events !! r) run.

Definition hashes_of (events : list Event) (run : list nat) : list string :=
  omap (fun r => Hash <$> events !! r) run.

(** *** Key entry *)

Definition is_key_down (ev : Event) : bool :=
  String.eqb (Name ev) "KeyboardEvent"
  && py_eq (dget (Data ev) "EventName") (VStr "DOWN").

Definition is_erase_key (key : value) : bool :=
  py_eq key (VStr "KEY_BACKSPACE") || py_eq key (VStr "KEY_DELETE").

(** The typed text as the specification words it: the characters typed so
    far, left to right; an erase key drops the last one, a key without a
    character mapping adds nothing. *)
Definition typed_step (text : list ascii) (key : value) : list ascii :=
  if is_erase_key key then removelast text
  else
    match table_get charMapping key with
    | Some c => text ++ list_ascii_of_string c
    | None => text
    end.

Definition typed_text (keys : list value) : string :=
  string_of_list_ascii (fold_left typed_step keys []).


(** *** Example records and buffers *)

Definition key_record (stroke key : string) (t : Q) (h : string) : Event :=
  {| Name := "KeyboardEvent";
     Data := <["EventName" := VStr stroke]> (<["Key" := VStr key]> ∅);
     Timestamp := t; Hash := h; Consumed := false |}.

Definition mouse_record (event_name button : string) (t : Q) (h : string)
    : Event :=
  {| Name := "MouseEvent";
     Data := <["EventName" := VStr event_name]> (<["Button" := VStr button]> ∅);
     Timestamp := t; Hash := h; Consumed := false |}.

Definition buffer_of (events : list Event) (index : nat) : HashBuffer :=
  {| release_ := true; events_ := events; index_ := Some index |}.

(** Keys [a], [BACKSPACE], [b], half a second apart. *)
Definition keys_a_bs_b : HashBuffer :=
  buffer_of [key_record "DOWN" "KEY_A" 0 "h0";
             key_record "DOWN" "KEY_BACKSPACE" (1 # 2) "h1";
             key_record "DOWN" "KEY_B" 1 "h2"] 0.


(** One key-down and nothing else. *)
Definition single_key : HashBuffer :=
  buffer_of [key_record "DOWN" "KEY_A" 0 "h0"] 0.

(** *** Scrollbar adjustment *)

(** A scrollbar record from the same source as [source]. *)
Definition is_scroll_of (source : Event) (ev : Event) : bool :=
  String.eqb (Name ev) "VerticalScrollbarAdjustmentEvent"
  && py_eq (dget (Data ev) "EventSource") (dget (Data source) "EventSource").

(** The positions of the records that [consume_loop] accepts. *)
Fixpoint scroll_run_loop (last_scroll_event : Event) (i : nat)
    (rest : list Event) : list nat :=
  match rest with
  | [] => []
  | event :: rest' =>
      if is_scroll_of last_scroll_event event then
        if Qltb (Timestamp event - Timestamp last_scroll_event)%Q 5 then
          i :: scroll_run_loop event (S i) rest'
        else []
      else scroll_run_loop last_scroll_event (S i) rest'
  end.




(** *** Mouse press *)

Definition field_location_record (source field : string) (t : Q) (h : string)
    : Event :=
  {| Name := "FieldLocationEvent";
     Data := <["EventSource" := VStr source]> (<["FieldText" := VStr field]> ∅);
     Timestamp := t; Hash := h; Consumed := false |}.

Definition press_record (button : Z) (popup : bool) (source : string)
    (t : Q) (h : string) : Event :=
  {| Name := "MousePressedEvent";
     Data := <["MouseButton" := VInt button]>
               (<["IsPopupTrigger" := VBool popup]>
                  (<["ClickCount" := VInt 1]>
                     (<["EventSource" := VStr source]> ∅)));
     Timestamp := t; Hash := h; Consumed := false |}.

(** A right-button press that opened a context menu, a tenth of a second
    after the location record of the field under the pointer. *)
Definition popup_press : HashBuffer :=
  buffer_of [field_location_record "CavaDecompilePlugin" "main" 0 "f0";
             press_record 3 true "CavaDecompilePlugin" (1 # 10) "p0"] 1.

(** *** Program activation *)



Definition activation_record (program : string) (t : Q) (h : string) : Event :=
  {| Name := "GhidraProgramActivatedEvent";
     Data := <["ProgramName" := VStr program]> ∅;
     Timestamp := t; Hash := h; Consumed := false |}.


(** A left click and, two seconds later, a program activation. *)
Definition activation_without_click : HashBuffer :=
  buffer_of [mouse_record "CLICK" "LEFT" 0 "m0";
             activation_record "crackme" 2 "a0"] 1.


(** *** Buffer and dispatcher *)

(** The cursor is unset on a buffer that never held a record, and otherwise
    lies between 0 and the length. *)
Definition cursor_in_range (b : HashBuffer) : Prop :=
  match index_ b with
  | None => events_ b = []
  | Some i => (i <= length (events_ b))%nat
  end.

(** The same records, position by position, except that some were marked
    consumed. *)
Definition consumed_more (events events' : list Event) : Prop :=
  Forall2 (fun e e' => e' = e \/ e' = set_Consumed true e) events events'.

(** The category names the dispatcher has a branch for. *)
Definition dispatched_names : list string :=
  ["KeyboardEvent"; "HeaderEvent"; "WindowEvent"; "FieldMouseEvent";
   "MousePressedEvent"; "FieldInputEvent"; "GhidraProgramActivatedEvent";
   "VerticalScrollbarAdjustmentEvent"; "MouseEnteredEvent";
   "MouseExitedEvent"].

(** The number of records from the cursor to the end. *)
Definition remaining (b : HashBuffer) : nat :=
  match index_ b with
  | None => 0
  | Some i => length (events_ b) - i
  end.

(** A policy step that only marks records: flag, cursor and records are
    kept, some records become consumed. *)
Definition only_marks (b b' : HashBuffer) : Prop :=
  release_ b' = release_ b /\
  index_ b' = index_ b /\
  consumed_more (events_ b) (events_ b').


Definition key_entry (stroke key : string) (t : Q) : entry :=
  {| entry_name := "KeyboardEvent";
     entry_data := <["EventName" := VStr stroke]> (<["Key" := VStr key]> ∅);
     entry_timestamp := t |}.


(** *** Example records for the other policies *)

Definition window_record (event_type window : string) (t : Q) (h : string)
    : Event :=
  {| Name := "WindowEvent";
     Data := <["EventType" := VStr event_type]>
               (<["WindowName" := VStr window]> ∅);
     Timestamp := t; Hash := h; Consumed := false |}.

Definition header_record (header event_type menu submenu : string) (t : Q)
    (h : string) : Event :=
  {| Name := "HeaderEvent";
     Data := <["Header" := VStr header]>
               (<["EventType" := VStr event_type]>
                  (<["MenuItem" := VStr menu]>
                     (<["SubMenuItem" := VStr submenu]> ∅)));
     Timestamp := t; Hash := h; Consumed := false |}.

Definition field_input_record (source field : string) (key_code : Z)
    (ctrl shift alt : bool) (t : Q) (h : string) : Event :=
  {| Name := "FieldInputEvent";
     Data := <["EventSource" := VStr source]>
               (<["FieldText" := VStr field]>
                  (<["KeyCode" := VInt key_code]>
                     (<["CtrlDown" := VBool ctrl]>
                        (<["ShiftDown" := VBool shift]>
                           (<["AltDown" := VBool alt]> ∅)))));
     Timestamp := t; Hash := h; Consumed := false |}.

Definition crossing_record (name source : string) (t : Q) (h : string) : Event :=
  {| Name := name;
     Data := <["EventSource" := VStr source]> ∅;
     Timestamp := t; Hash := h; Consumed := false |}.

(** *** Field interaction *)

Definition source_of (ev : Event) : value := dget (Data ev) "EventSource".

(** No two entries of a dictionary have equal keys. *)
Fixpoint distinct_keys (d : list (value * Event)) : Prop :=
  match d with
  | [] => True
  | (k, _) :: d' =>
      (forall k' v', (k', v') ∈ d' -> py_eq k' k = false) /\ distinct_keys d'
  end.

(** The companions in the order in which the first loop of
    [create_left_click_tool_action_fragment] visits them. *)
Definition visit_order (mouse_action : string) (companions : list Event)
    : list Event :=
  if String.eqb mouse_action "Click" then reverse companions else companions.

(** The effect fragment for the selected companions, each with the display
    name of its source and its field text. *)
Fixpoint selection_text (entries : list (string * string)) : string :=
  match entries with
  | [] => ""
  | (plugin, field) :: entries' =>
      (plugin +:+ " : SelectionChanged : " +:+ "Field(" +:+ field +:+ ")")
      +:+ match entries' with
          | [] => ""
          | _ :: _ => " && " +:+ selection_text entries'
          end
  end.

Definition field_mouse_record (source field : string) (button count : Z)
    (t : Q) (h : string) : Event :=
  {| Name := "FieldMouseEvent";
     Data := <["EventSource" := VStr source]>
               (<["FieldText" := VStr field]>
                  (<["MouseButton" := VInt button]>
                     (<["ClickCount" := VInt count]> ∅)));
     Timestamp := t; Hash := h; Consumed := false |}.

(** *** Loading of field-location records *)





(** A left click on a field of the decompiler at time 3, between a key
    stroke at time 0 and one at time 10.  Location records at times 1, 3.1,
    9 and 11; two of them come from the decompiler. *)
Definition decompiler_click : Event :=
  field_mouse_record "CavaDecompilePlugin" "main" 1 1 3 "m0".

Definition field_click : HashBuffer :=
  buffer_of [key_record "DOWN" "KEY_A" 0 "k0";
             field_location_record "CavaCodeBrowserPlugin" "old" 1 "f0";
             decompiler_click;
             field_location_record "CavaDecompilePlugin" "main" (31 # 10) "f1";
             field_location_record "CavaDecompilePlugin" "later" 9 "f2";
             key_record "DOWN" "KEY_B" 10 "k1";
             field_location_record "CavaCodeBrowserPlugin" "far" 11 "f3"] 2.

(** The display name and the field text that the second loop of
    [create_left_click_tool_action_fragment] reads for a kept companion. *)
Definition entry_of (item : value * Event) (entry : string * string) : Prop :=
  table_get_str internal_plugin_to_grammar item.1 = Ok entry.1 /\
  as_str (dget (Data item.2) "FieldText") = Ok entry.2.

(** Entries at the times 0, 1, 2, 10 and 11, each paired with its line
    number. *)
Definition timed_entries : list (entry * nat) :=
  [(key_entry "DOWN" "KEY_A" 0, 0%nat);
   (key_entry "DOWN" "KEY_B" 1, 1%nat);
   (key_entry "DOWN" "KEY_C" 2, 2%nat);
   (key_entry "DOWN" "KEY_D" 10, 3%nat);
   (key_entry "DOWN" "KEY_E" 11, 4%nat)].

(** * Properties *)

(** ** Basic facts about the model *)

Lemma Qltb_lt (a b : Q) : Qltb a b = true <-> (a < b)%Q.
Proof. unfold Qltb, Qlt. apply Z.ltb_lt. Qed.

Lemma Qltb_ge (a b : Q) : Qltb a b = false <-> (b <= a)%Q.
Proof. unfold Qltb, Qle. rewrite Z.ltb_ge. reflexivity. Qed.

(** ** Sentence model *)

(** C6. [render] (the [__str__] of an [Interaction]) is ["device : action"]
    when the context fragment is empty, whatever the effect fragment holds;
    ["device : action > context"] when the context is set and the effect is
    empty; and ["device : action > context > effect"] when both are set. *)
Theorem render_canonical (i : Interaction) :
  (tool_context_ i = "" ->
     Interaction.str i = input_device_ i +:+ " : " +:+ input_action_ i) /\
  (tool_context_ i <> "" -> action_ i = "" ->
     Interaction.str i =
       (input_device_ i +:+ " : " +:+ input_action_ i)
       +:+ " > " +:+ tool_context_ i) /\
  (tool_context_ i <> "" -> action_ i <> "" ->
     Interaction.str i =
       ((input_device_ i +:+ " : " +:+ input_action_ i)
        +:+ " > " +:+ tool_context_ i) +:+ " > " +:+ action_ i).
Proof.
  unfold Interaction.str.
  destruct (String.eqb_spec (tool_context_ i) "") as [Hc | Hc];
    destruct (String.eqb_spec (action_ i) "") as [Ha | Ha]; simpl;
    repeat split; intros; try congruence; reflexivity.
Qed.

Lemma render_canonical_witness :
  Interaction.str (Interaction.set_sentence "Mouse" "Drag" "" "Open(X)")
    = "Mouse : Drag" /\
  Interaction.str (Interaction.set_sentence "Mouse" "Drag" "Decompiler" "")
    = "Mouse : Drag > Decompiler" /\
  Interaction.str (Interaction.set_sentence "Mouse" "Drag" "Decompiler" "Open(X)")
    = "Mouse : Drag > Decompiler > Open(X)".
Proof.
  split; [| split].
  - apply (proj1 (render_canonical
             (Interaction.set_sentence "Mouse" "Drag" "" "Open(X)"))).
    reflexivity.
  - apply (proj1 (proj2 (render_canonical
             (Interaction.set_sentence "Mouse" "Drag" "Decompiler" "")))).
    + simpl. discriminate.
    + reflexivity.
  - apply (proj2 (proj2 (render_canonical
             (Interaction.set_sentence "Mouse" "Drag" "Decompiler" "Open(X)")))).
    + simpl. discriminate.
    + simpl. discriminate.
Defined.

(** ** Ordered event buffer *)

Lemma slice_from_nonneg {A : Type} (k : Z) (l : list A) :
  0 <= k -> HashBuffer.slice_from k l = drop (Z.to_nat k) l.
Proof.
  intros Hk. unfold HashBuffer.slice_from.
  destruct (Z.ltb_spec k 0); [lia | reflexivity].
Qed.

Lemma slice_from_nonempty {A : Type} (k : Z) (l : list A) :
  l <> [] -> k < Z.of_nat (length l) -> HashBuffer.slice_from k l <> [].
Proof.
  intros Hl Hk Hnil. apply (f_equal length) in Hnil. revert Hnil.
  assert (0 < length l)%nat by (destruct l; [congruence | simpl; lia]).
  unfold HashBuffer.slice_from.
  destruct (Z.ltb_spec k 0); rewrite length_drop; simpl; lia.
Qed.

(** C9. [purge(uptoIndex)] returns its failure signal ([False]) and leaves
    the buffer as it is when [uptoIndex >= length]; for an index below the
    length it removes exactly the records at positions below [uptoIndex],
    keeps the others in order and sets the cursor to 0; a purge never leaves
    a buffer that held records empty. *)
Theorem purge_contract (b : HashBuffer) (uptoIndex : Z) :
  (Z.of_nat (length (events_ b)) <= uptoIndex ->
     HashBuffer.purge b uptoIndex = (HashBuffer.PurgeFalse, b)) /\
  (0 <= uptoIndex < Z.of_nat (length (events_ b)) ->
     exists b',
       HashBuffer.purge b uptoIndex = (HashBuffer.PurgeNone, b') /\
       events_ b = take (Z.to_nat uptoIndex) (events_ b) ++ events_ b' /\
       length (take (Z.to_nat uptoIndex) (events_ b)) = Z.to_nat uptoIndex /\
       (forall j, events_ b' !! j = events_ b !! (Z.to_nat uptoIndex + j)%nat) /\
       index_ b' = Some 0%nat /\
       release_ b' = release_ b /\
       events_ b' <> []) /\
  (events_ b <> [] -> events_ (HashBuffer.purge b uptoIndex).2 <> []).
Proof.
  unfold HashBuffer.purge. split; [| split].
  - intros Hge. destruct (Z.leb_spec (Z.of_nat (length (events_ b))) uptoIndex);
      [reflexivity | lia].
  - intros [H0 Hlt].
    destruct (Z.leb_spec (Z.of_nat (length (events_ b))) uptoIndex); [lia |].
    eexists. split; [reflexivity |]. simpl.
    rewrite slice_from_nonneg by lia.
    repeat split.
    + symmetry. apply take_drop.
    + rewrite length_take. lia.
    + intros j. apply lookup_drop.
    + intros Hnil. apply (f_equal length) in Hnil.
      rewrite length_drop in Hnil. simpl in Hnil. lia.
  - intros Hne.
    destruct (Z.leb_spec (Z.of_nat (length (events_ b))) uptoIndex); simpl.
    + exact Hne.
    + apply slice_from_nonempty; [exact Hne | lia].
Qed.

(** A negative Python integer is not a position of the buffer: the slice
    then counts from the end, and [purge(-1)] keeps the last record only. *)
Example purge_negative_integer :
  events_ (HashBuffer.purge keys_a_bs_b (-1)).2
    = [key_record "DOWN" "KEY_B" 1 "h2"].
Proof. reflexivity. Qed.

(** C10. On a freshly constructed buffer, and as long as the cursor is
    unset, [current()] raises [TypeError]; every [add] sets the cursor, the
    other operations keep it set, and with the cursor set [current()] gives
    the no-record signal exactly when the cursor is at or past the length,
    and the record under the cursor otherwise. *)
Theorem current_unset_cursor :
  (forall release,
     HashBuffer.current (HashBuffer.init release) = Raise TypeError) /\
  (forall b, index_ b = None -> HashBuffer.current b = Raise TypeError) /\
  (forall md5 b name data ts,
     index_ (HashBuffer.add md5 b name data ts) <> None) /\
  (forall b k, index_ b <> None ->
     index_ (HashBuffer.next b) <> None /\
     index_ (HashBuffer.purge b k).2 <> None /\
     index_ (HashBuffer.reset_index b) <> None) /\
  (forall b i, index_ b = Some i ->
     (HashBuffer.current b = Ok None <-> (length (events_ b) <= i)%nat) /\
     ((i < length (events_ b))%nat ->
        exists ev, events_ b !! i = Some ev /\
                   HashBuffer.current b = Ok (Some ev))).
Proof.
  split; [reflexivity |]. split.
  { intros b Hb. unfold HashBuffer.current. rewrite Hb. reflexivity. }
  split.
  { intros md5 b name data ts. unfold HashBuffer.add. simpl.
    destruct (index_ b); discriminate. }
  split.
  { intros b k Hb. repeat split.
    - unfold HashBuffer.next. destruct (HashBuffer.has_next b); [| exact Hb].
      simpl. destruct (index_ b); [discriminate | congruence].
    - unfold HashBuffer.purge.
      destruct (Z.of_nat (length (events_ b)) <=? k); [exact Hb | discriminate].
    - discriminate. }
  intros b i Hb. unfold HashBuffer.current. rewrite Hb. split.
  - destruct (Nat.leb_spec (length (events_ b)) i) as [Hle | Hlt].
    + split; [intros _; exact Hle | reflexivity].
    + destruct (lookup_lt_is_Some_2 (events_ b) i Hlt) as [ev Hev].
      rewrite Hev. split; [discriminate | lia].
  - intros Hlt.
    destruct (Nat.leb_spec (length (events_ b)) i) as [Hle | _]; [lia |].
    destruct (lookup_lt_is_Some_2 (events_ b) i Hlt) as [ev Hev].
    exists ev. rewrite Hev. split; reflexivity.
Qed.

(** ** Key-entry policy *)

Lemma drop_cons_inv {A : Type} (l : list A) (k : nat) (x : A) (r : list A) :
  drop k l = x :: r -> l !! k = Some x /\ drop (S k) l = r.
Proof.
  revert k. induction l as [| y l IH]; intros [| k] Hd; simpl in *;
    try discriminate.
  - inversion Hd. split; reflexivity.
  - apply IH. exact Hd.
Qed.

Lemma elem_of_positions_where (p : Event -> bool) (rest : list Event) :
  forall k i,
    i ∈ positions_where p k rest <->
    exists ev, (k <= i)%nat /\ rest !! (i - k)%nat = Some ev /\ p ev = true.
Proof.
  induction rest as [| ev rest IH]; intros k i; simpl.
  - split; [intros H; inversion H | intros (ev & _ & H & _); discriminate].
  - assert (Hrest : i ∈ positions_where p (S k) rest <->
              exists ev', (k <= i)%nat /\ (ev :: rest) !! (i - k)%nat = Some ev'
                          /\ p ev' = true /\ i <> k).
    { rewrite IH. split.
      - intros (ev' & Hle & Hl & Hp). exists ev'.
        replace (i - k)%nat with (S (i - S k)) by lia. repeat split; auto; lia.
      - intros (ev' & Hle & Hl & Hp & Hne). exists ev'.
        replace (i - k)%nat with (S (i - S k)) in Hl by lia.
        repeat split; auto; lia. }
    destruct (p ev) eqn:Hp.
    + rewrite elem_of_cons, Hrest. split.
      * intros [-> | (ev' & ? & ? & ? & ?)]; [| eauto].
        exists ev. rewrite Nat.sub_diag. auto.
      * intros (ev' & Hle & Hl & Hp').
        destruct (decide (i = k)) as [-> | Hne]; [left; reflexivity |].
        right. eauto 6.
    + rewrite Hrest. split.
      * intros (ev' & ? & ? & ? & ?). eauto.
      * intros (ev' & Hle & Hl & Hp').
        destruct (decide (i = k)) as [-> | Hne]; [| eauto 6].
        rewrite Nat.sub_diag in Hl. simpl in Hl. congruence.
Qed.

(** The positions after the cursor are positions of the buffer. *)
Lemma elem_of_positions_after (p : Event -> bool) (events : list Event)
    (index i : nat) :
  i ∈ positions_after p events index <->
  exists ev, (index < i)%nat /\ events !! i = Some ev /\ p ev = true.
Proof.
  unfold positions_after. rewrite elem_of_positions_where.
  split; intros (ev & Hle & Hl & Hp); exists ev.
  - rewrite lookup_drop in Hl.
    replace (S index + (i - S index))%nat with i in Hl by lia.
    repeat split; auto; lia.
  - rewrite lookup_drop.
    replace (S index + (i - S index))%nat with i by lia.
    repeat split; auto; lia.
Qed.

Lemma typing_loop_spec (events : list Event) :
  forall rest last k,
    rest = drop k events ->
    let typing := KeyboardEvent.typing_loop last k rest in
    typing `prefix_of` positions_where is_key_down k rest /\
    chained events (91 # 100) (Timestamp last) typing /\
    (forall j ev,
       (typing ++ [j]) `prefix_of` positions_where is_key_down k rest ->
       events !! j = Some ev ->
       (91 # 100 <= Timestamp ev - last_time events (Timestamp last) typing)%Q).
Proof.
  induction rest as [| ev rest IH]; intros last k Hrest; simpl.
  - repeat split; [reflexivity |].
    intros j ev' Hpre _. apply prefix_nil_inv in Hpre. discriminate.
  - symmetry in Hrest. apply drop_cons_inv in Hrest as [Hk Hrest].
    symmetry in Hrest. unfold is_key_down.
    destruct (String.eqb (Name ev) "KeyboardEvent"); simpl;
      [| apply IH; exact Hrest].
    destruct (py_eq (dget (Data ev) "EventName") (VStr "DOWN"));
      [| apply IH; exact Hrest].
    destruct (Qltb (Timestamp ev - Timestamp last) (91 # 100)) eqn:Hgap.
    + destruct (IH ev (S k) Hrest) as (Hpre & Hch & Hmax).
      split; [apply prefix_cons; exact Hpre |]. split.
      * simpl. exists ev. split; [exact Hk |].
        split; [apply Qltb_lt; exact Hgap | exact Hch].
      * intros j ev' Hj Hev'. simpl. rewrite Hk. simpl.
        apply (Hmax j ev'); [| exact Hev'].
        simpl in Hj. apply prefix_cons_inv_2 in Hj. exact Hj.
    + split; [apply prefix_nil |]. split; [exact I |].
      intros j ev' Hj Hev'. simpl in *.
      apply prefix_cons_inv_1 in Hj. subst j.
      assert (ev' = ev) by congruence. subst ev'.
      apply Qltb_ge. exact Hgap.
Qed.

Lemma get_all_typing_events_eq (b : HashBuffer) (index : nat) (trigger : Event) :
  index_ b = Some index ->
  events_ b !! index = Some trigger ->
  KeyboardEvent.get_all_typing_events b =
    Ok (KeyboardEvent.typing_loop trigger (S index) (drop (S index) (events_ b))).
Proof.
  intros Hi Ht. unfold KeyboardEvent.get_all_typing_events,
    HashBuffer.current, HashBuffer.get_index, HashBuffer.get_event_list.
  rewrite Hi.
  destruct (Nat.leb_spec (length (events_ b)) index) as [Hle | _].
  - apply lookup_lt_Some in Ht. lia.
  - rewrite Ht. reflexivity.
Qed.




(** *** The store after a run has been marked *)

Lemma alter_lookup_None (events : list Event) (r : nat) :
  events !! r = None -> alter (set_Consumed true) r events = events.
Proof.
  revert r. induction events as [| e events IH]; intros [| r] H; simpl in *;
    try reflexivity; try discriminate.
  f_equal. apply IH. exact H.
Qed.

Lemma insert_consumed_alter (events : list Event) (r : nat) (ev : Event) :
  events !! r = Some ev ->
  <[r := set_Consumed true ev]> events = alter (set_Consumed true) r events.
Proof.
  revert r. induction events as [| e events IH]; intros [| r] H; simpl in *;
    try reflexivity; try discriminate.
  - congruence.
  - f_equal. apply IH. exact H.
Qed.

Lemma alter_consumed_fmap {B : Type} (f : Event -> B) (events : list Event)
    (r i : nat) :
  (forall e, f (set_Consumed true e) = f e) ->
  f <$> alter (set_Consumed true) r events !! i = f <$> events !! i.
Proof.
  intros Hf. destruct (decide (r = i)) as [-> | Hne].
  - rewrite list_lookup_alter_eq. destruct (events !! i); simpl;
      [rewrite Hf |]; reflexivity.
  - rewrite list_lookup_alter_ne by exact Hne. reflexivity.
Qed.

Lemma keys_of_cons (events : list Event) (i : nat) (run : list nat) :
  keys_of events (i :: run) =
  match (fun ev => dget (Data ev) "Key") <$> events !! i with
  | Some key => key :: keys_of events run
  | None => keys_of events run
  end.
Proof. reflexivity. Qed.

Lemma hashes_of_cons (events : list Event) (i : nat) (run : list nat) :
  hashes_of events (i :: run) =
  match Hash <$> events !! i with
  | Some h => h :: hashes_of events run
  | None => hashes_of events run
  end.
Proof. reflexivity. Qed.

Lemma keys_of_alter (events : list Event) (r : nat) (run : list nat) :
  keys_of (alter (set_Consumed true) r events) run = keys_of events run.
Proof.
  induction run as [| i run IH]; [reflexivity |].
  rewrite !keys_of_cons, IH.
  rewrite (alter_consumed_fmap (fun ev => dget (Data ev) "Key"))
    by reflexivity.
  reflexivity.
Qed.

Lemma hashes_of_alter (events : list Event) (r : nat) (run : list nat) :
  hashes_of (alter (set_Consumed true) r events) run = hashes_of events run.
Proof.
  induction run as [| i run IH]; [reflexivity |].
  rewrite !hashes_of_cons, IH.
  rewrite (alter_consumed_fmap Hash) by reflexivity.
  reflexivity.
Qed.

Lemma lookup_mark_consumed_out (run : list nat) :
  forall events i,
    i ∉ run -> mark_consumed run events !! i = events !! i.
Proof.
  induction run as [| r run IH]; intros events i Hi; [reflexivity |].
  apply not_elem_of_cons in Hi as [Hne Hi]. simpl.
  rewrite IH by exact Hi. apply list_lookup_alter_ne. congruence.
Qed.

Lemma lookup_mark_consumed_in (run : list nat) :
  forall events i,
    i ∈ run ->
    mark_consumed run events !! i = set_Consumed true <$> events !! i.
Proof.
  induction run as [| r run IH]; intros events i Hi; [inversion Hi |].
  simpl. destruct (decide (i ∈ run)) as [Hin | Hnin].
  - rewrite IH by exact Hin.
    destruct (decide (r = i)) as [-> | Hne].
    + rewrite list_lookup_alter_eq. destruct (events !! i); reflexivity.
    + rewrite list_lookup_alter_ne by exact Hne. reflexivity.
  - apply elem_of_cons in Hi as [-> | Hi]; [| contradiction].
    rewrite lookup_mark_consumed_out by exact Hnin.
    apply list_lookup_alter_eq.
Qed.

(** *** The typed string *)

Lemma but_last_removelast (s : string) :
  but_last s = string_of_list_ascii (removelast (list_ascii_of_string s)).
Proof.
  induction s as [| c s IH]; [reflexivity |].
  simpl. destruct s as [| c' s]; [reflexivity |].
  rewrite IH. reflexivity.
Qed.

Lemma append_list_ascii (s t : string) :
  s +:+ t =
  string_of_list_ascii (list_ascii_of_string s ++ list_ascii_of_string t).
Proof.
  induction s as [| c s IH]; simpl.
  - symmetry. apply string_of_list_ascii_of_string.
  - rewrite <- IH. reflexivity.
Qed.

Lemma typing_string_loop_eq (typed : list nat) :
  forall typed_string hashes events,
    KeyboardEvent.typing_string_loop typed typed_string hashes events =
    (string_of_list_ascii
       (fold_left typed_step (keys_of events typed)
          (list_ascii_of_string typed_string)),
     hashes ++ hashes_of events typed,
     mark_consumed typed events).
Proof.
  induction typed as [| r typed IH]; intros typed_string hashes events.
  - simpl. rewrite string_of_list_ascii_of_string, app_nil_r. reflexivity.
  - rewrite keys_of_cons, hashes_of_cons. simpl.
    destruct (events !! r) as [ev |] eqn:Hr; simpl.
    + rewrite (insert_consumed_alter events r ev Hr).
      unfold typed_step at 2. unfold is_erase_key.
      destruct (py_eq (dget (Data ev) "Key") (VStr "KEY_BACKSPACE")
                || py_eq (dget (Data ev) "Key") (VStr "KEY_DELETE")).
      * rewrite IH, keys_of_alter, hashes_of_alter, but_last_removelast,
          list_ascii_of_string_of_list_ascii, <- app_assoc. reflexivity.
      * destruct (table_get charMapping (dget (Data ev) "Key")) as [c |].
        -- rewrite IH, keys_of_alter, hashes_of_alter, append_list_ascii,
             list_ascii_of_string_of_list_ascii, <- app_assoc. reflexivity.
        -- rewrite IH, keys_of_alter, hashes_of_alter, <- app_assoc.
           reflexivity.
    + rewrite IH, (alter_lookup_None events r Hr). reflexivity.
Qed.

Lemma current_at (b : HashBuffer) (index : nat) (ev : Event) :
  index_ b = Some index ->
  events_ b !! index = Some ev ->
  HashBuffer.current b = Ok (Some ev).
Proof.
  intros Hi He. unfold HashBuffer.current. rewrite Hi.
  destruct (Nat.leb_spec (length (events_ b)) index) as [Hle | _].
  - apply lookup_lt_Some in He. lia.
  - rewrite He. reflexivity.
Qed.

(** [parse_event] with the cursor on a record, loops unfolded. *)
Lemma keyboard_parse_event_eq (b : HashBuffer) (index : nat) (trigger : Event) :
  index_ b = Some index ->
  events_ b !! index = Some trigger ->
  let typing :=
    KeyboardEvent.typing_loop trigger (S index) (drop (S index) (events_ b)) in
  KeyboardEvent.parse_event b =
    if Consumed trigger then (Ok None, b)
    else if py_eq (dget (Data trigger) "EventName") (VStr "UP") then (Ok None, b)
    else
      match typing with
      | [] => (Ok None, b)
      | _ :: _ =>
          (Ok (Some [{| sentence_ :=
                          KeyboardEvent.keyboard_sentence
                            (typed_text (keys_of (events_ b) (index :: typing)));
                        inferred_ := false;
                        hash_list_ := hashes_of (events_ b) (index :: typing);
                        timestamp_ := Timestamp trigger;
                        source_event_ := raw trigger |}]),
           with_events b (mark_consumed (index :: typing) (events_ b)))
      end.
Proof.
  intros Hi He typing. unfold KeyboardEvent.parse_event.
  rewrite (current_at b index trigger Hi He).
  unfold HashBuffer.get_index. rewrite Hi.
  destruct (Consumed trigger); [reflexivity |].
  destruct (py_eq (dget (Data trigger) "EventName") (VStr "UP"));
    [reflexivity |].
  rewrite (get_all_typing_events_eq b index trigger Hi He).
  fold typing. destruct typing as [| t typing']; [reflexivity |].
  unfold KeyboardEvent.create_typing_string.
  rewrite typing_string_loop_eq. reflexivity.
Qed.

Lemma typing_positions_valid (events : list Event) (index : nat)
    (trigger : Event) (i : nat) :
  i ∈ KeyboardEvent.typing_loop trigger (S index) (drop (S index) events) ->
  exists ev, (index < i)%nat /\ events !! i = Some ev /\ is_key_down ev = true.
Proof.
  intros Hi.
  destruct (typing_loop_spec events (drop (S index) events) trigger (S index)
              eq_refl) as [[k Hk] _].
  apply elem_of_positions_after. unfold positions_after. rewrite Hk.
  apply elem_of_app. left. exact Hi.
Qed.

(** C2 (as the code has it).  With the cursor on an unconsumed key-down
    record: when no follow-up key was collected the policy emits nothing and
    leaves the buffer as it is; when at least one was collected it emits
    exactly one observed statement, whose action fragment is the typed text
    of the run (also when that text is empty) and whose provenance lists the
    run's records, marks every record of the run, the triggering one
    included, consumed, and touches no other record. *)
Theorem key_entry_emission (b : HashBuffer) (index : nat) (trigger : Event) :
  index_ b = Some index ->
  events_ b !! index = Some trigger ->
  Consumed trigger = false ->
  dget (Data trigger) "EventName" = VStr "DOWN" ->
  exists typing,
    KeyboardEvent.get_all_typing_events b = Ok typing /\
    (typing = [] -> KeyboardEvent.parse_event b = (Ok None, b)) /\
    (typing <> [] ->
       exists g b',
         KeyboardEvent.parse_event b = (Ok (Some [g]), b') /\
         inferred_ g = false /\
         input_device_ (sentence_ g) = "Keyboard" /\
         input_action_ (sentence_ g) =
           typed_text (keys_of (events_ b) (index :: typing)) /\
         hash_list_ g = hashes_of (events_ b) (index :: typing) /\
         index_ b' = index_ b /\
         (forall i, i ∈ index :: typing ->
            exists ev, events_ b !! i = Some ev /\
                       events_ b' !! i = Some (set_Consumed true ev)) /\
         (forall i, i ∉ index :: typing -> events_ b' !! i = events_ b !! i)).
Proof.
  intros Hi He Hc Hdown.
  pose proof (keyboard_parse_event_eq b index trigger Hi He) as Hparse.
  cbv zeta in Hparse. rewrite Hc, Hdown in Hparse.
  change (py_eq (VStr "DOWN") (VStr "UP")) with false in Hparse.
  cbv iota in Hparse.
  eexists. split; [apply (get_all_typing_events_eq b index trigger Hi He) |].
  pose proof (typing_positions_valid (events_ b) index trigger) as Hvalid.
  destruct (KeyboardEvent.typing_loop trigger (S index)
              (drop (S index) (events_ b))) as [| t typing] eqn:Htyping.
  - split; [intros _; exact Hparse | congruence].
  - split; [discriminate |]. intros _.
    eexists _, _. split; [exact Hparse |].
    cbn [with_events events_ index_ inferred_ sentence_ hash_list_
         input_device_ input_action_ KeyboardEvent.keyboard_sentence].
    repeat split; try exact Hi.
    + intros i Hin. apply elem_of_cons in Hin as [-> | Hin].
      * exists trigger. split; [exact He |].
        rewrite (lookup_mark_consumed_in (index :: t :: typing))
          by (apply elem_of_cons; left; reflexivity).
        rewrite He. reflexivity.
      * destruct (Hvalid i Hin) as (ev & _ & Hev & _).
        exists ev. split; [exact Hev |].
        rewrite (lookup_mark_consumed_in (index :: t :: typing))
          by (apply elem_of_cons; right; exact Hin).
        rewrite Hev. reflexivity.
    + intros i Hnin.
      apply (lookup_mark_consumed_out (index :: t :: typing)). exact Hnin.
Qed.

Lemma key_entry_emission_witness :
  exists typing,
    KeyboardEvent.get_all_typing_events keys_a_bs_b = Ok typing /\
    (typing = [] -> KeyboardEvent.parse_event keys_a_bs_b = (Ok None, keys_a_bs_b)) /\
    (typing <> [] ->
       exists g b',
         KeyboardEvent.parse_event keys_a_bs_b = (Ok (Some [g]), b') /\
         inferred_ g = false /\
         input_device_ (sentence_ g) = "Keyboard" /\
         input_action_ (sentence_ g) =
           typed_text (keys_of (events_ keys_a_bs_b) (0%nat :: typing)) /\
         hash_list_ g = hashes_of (events_ keys_a_bs_b) (0%nat :: typing) /\
         index_ b' = index_ keys_a_bs_b /\
         (forall i, i ∈ 0%nat :: typing ->
            exists ev, events_ keys_a_bs_b !! i = Some ev /\
                       events_ b' !! i = Some (set_Consumed true ev)) /\
         (forall i, i ∉ 0%nat :: typing ->
            events_ b' !! i = events_ keys_a_bs_b !! i)).
Proof.
  apply (key_entry_emission keys_a_bs_b 0%nat
           (key_record "DOWN" "KEY_A" 0 "h0")); reflexivity.
Defined.

(** C2 (as stated) fails: one unconsumed key-down with a printable
    character and no follow-up key yields no statement. *)
Lemma single_key_emits_nothing :
  HashBuffer.current single_key = Ok (Some (key_record "DOWN" "KEY_A" 0 "h0")) /\
  table_get charMapping (VStr "KEY_A") = Some "a" /\
  KeyboardEvent.get_all_typing_events single_key = Ok [] /\
  ~ (exists g b', KeyboardEvent.parse_event single_key = (Ok (Some [g]), b')).
Proof.
  repeat split; try reflexivity.
  intros (g & b' & H).
  assert (Hnone : KeyboardEvent.parse_event single_key = (Ok None, single_key))
    by reflexivity.
  rewrite Hnone in H. discriminate H.
Qed.

(** C7. The string built by [create_typing_string] is the typed text of
    the run's keys, taken left to right: an erase key (backspace or delete)
    removes the last character accumulated so far and does nothing on an
    empty text, a key without a character mapping is skipped, any other key
    adds its characters.  The keys a, BACKSPACE, b, half a second apart,
    yield one statement whose action fragment is ["b"]. *)
Theorem typing_string_render :
  (forall typed events,
     (KeyboardEvent.create_typing_string typed events).1.1 =
     typed_text (keys_of events typed)) /\
  (forall text key, is_erase_key key = true ->
     typed_step text key = removelast text) /\
  (forall key, is_erase_key key = true -> typed_step [] key = []) /\
  (forall text key, is_erase_key key = false ->
     table_get charMapping key = None -> typed_step text key = text) /\
  (forall text key c, is_erase_key key = false ->
     table_get charMapping key = Some c ->
     typed_step text key = text ++ list_ascii_of_string c) /\
  (exists g b',
     KeyboardEvent.parse_event keys_a_bs_b = (Ok (Some [g]), b') /\
     keys_of (events_ keys_a_bs_b) [0; 1; 2]%nat =
       [VStr "KEY_A"; VStr "KEY_BACKSPACE"; VStr "KEY_B"] /\
     input_action_ (sentence_ g) = "b").
Proof.
  split.
  { intros typed events. unfold KeyboardEvent.create_typing_string.
    rewrite typing_string_loop_eq. reflexivity. }
  split. { intros text key H. unfold typed_step. rewrite H. reflexivity. }
  split. { intros key H. unfold typed_step. rewrite H. reflexivity. }
  split. { intros text key H1 H2. unfold typed_step. rewrite H1, H2. reflexivity. }
  split. { intros text key c H1 H2. unfold typed_step. rewrite H1, H2. reflexivity. }
  eexists _, _. split; [| split]; reflexivity.
Qed.

(** C8. Once a key-entry run has completed, that is once the policy has
    returned a statement for it, dispatching the policy again with the
    cursor on any record of the run (the triggering record or a collected
    one) yields no statement and changes nothing. *)
Theorem consumed_run_redispatch (b b' : HashBuffer) (index : nat)
    (trigger : Event) (stmts : list GrammarEvent) :
  index_ b = Some index ->
  events_ b !! index = Some trigger ->
  KeyboardEvent.parse_event b = (Ok (Some stmts), b') ->
  exists typing,
    KeyboardEvent.get_all_typing_events b = Ok typing /\
    forall i, i ∈ index :: typing ->
      KeyboardEvent.parse_event (with_index b' (Some i)) =
        (Ok None, with_index b' (Some i)).
Proof.
  intros Hi He Hparse.
  rewrite (keyboard_parse_event_eq b index trigger Hi He) in Hparse.
  cbv zeta in Hparse.
  eexists. split; [apply (get_all_typing_events_eq b index trigger Hi He) |].
  pose proof (typing_positions_valid (events_ b) index trigger) as Hvalid.
  destruct (Consumed trigger); [discriminate |].
  destruct (py_eq (dget (Data trigger) "EventName") (VStr "UP"));
    [discriminate |].
  destruct (KeyboardEvent.typing_loop trigger (S index)
              (drop (S index) (events_ b))) as [| t typing] eqn:Htyping;
    [discriminate |].
  injection Hparse as _ Hb'. subst b'.
  intros i Hin.
  assert (Hlook : exists ev,
            mark_consumed (index :: t :: typing) (events_ b) !! i
            = Some (set_Consumed true ev)).
  { rewrite (lookup_mark_consumed_in (index :: t :: typing)) by exact Hin.
    apply elem_of_cons in Hin as [-> | Hin].
    - exists trigger. rewrite He. reflexivity.
    - destruct (Hvalid i Hin) as (ev & _ & Hev & _).
      exists ev. rewrite Hev. reflexivity. }
  destruct Hlook as [ev Hev].
  rewrite (keyboard_parse_event_eq _ i (set_Consumed true ev));
    [reflexivity | reflexivity | exact Hev].
Qed.

Lemma consumed_run_redispatch_witness :
  exists typing,
    KeyboardEvent.get_all_typing_events keys_a_bs_b = Ok typing /\
    forall i, i ∈ 0%nat :: typing ->
      KeyboardEvent.parse_event
        (with_index (KeyboardEvent.parse_event keys_a_bs_b).2 (Some i)) =
        (Ok None, with_index (KeyboardEvent.parse_event keys_a_bs_b).2 (Some i)).
Proof.
  destruct (KeyboardEvent.parse_event keys_a_bs_b) as [r b'] eqn:Hp.
  assert (Hr : exists stmts, r = Ok (Some stmts)).
  { replace r with (KeyboardEvent.parse_event keys_a_bs_b).1 by (rewrite Hp; reflexivity).
    eexists. reflexivity. }
  destruct Hr as [stmts ->].
  exact (consumed_run_redispatch keys_a_bs_b b' 0%nat
           (key_record "DOWN" "KEY_A" 0 "h0") stmts eq_refl eq_refl Hp).
Defined.

(** ** Scrollbar-adjustment policy *)

Lemma py_eq_true_r (a b : value) :
  py_eq a b = true -> forall x, py_eq x a = py_eq x b.
Proof.
  intros Hab x.
  destruct a as [| [|] | y | s], b as [| [|] | z | t];
    cbn [py_eq as_int] in Hab;
    try discriminate Hab;
    try (apply Z.eqb_eq in Hab; try discriminate Hab; subst);
    try (apply String.eqb_eq in Hab; subst);
    destruct x as [| [|] | w | u]; reflexivity.
Qed.

Lemma scroll_run_loop_last (rest : list Event) :
  forall last last' k,
    Data last = Data last' -> Timestamp last = Timestamp last' ->
    scroll_run_loop last k rest = scroll_run_loop last' k rest.
Proof.
  induction rest as [| ev rest IH]; intros last last' k Hd Ht; [reflexivity |].
  simpl. unfold is_scroll_of. rewrite Hd, Ht.
  destruct (String.eqb (Name ev) "VerticalScrollbarAdjustmentEvent"
            && py_eq (dget (Data ev) "EventSource")
                 (dget (Data last') "EventSource"));
    [| apply IH; assumption].
  reflexivity.
Qed.

Lemma consume_loop_eq :
  forall rest last k hash_list events,
    rest = drop k events ->
    exists last',
      VerticalScrollbarAdjustmentEvent.consume_loop last k rest hash_list events =
      (last',
       hash_list ++ hashes_of events (scroll_run_loop last k rest),
       mark_consumed (scroll_run_loop last k rest) events).
Proof.
  induction rest as [| ev rest IH]; intros last k hash_list events Hrest; simpl.
  - exists last. rewrite app_nil_r. reflexivity.
  - symmetry in Hrest. apply drop_cons_inv in Hrest as [Hk Hrest].
    unfold is_scroll_of.
    destruct (String.eqb (Name ev) "VerticalScrollbarAdjustmentEvent"); simpl;
      [| apply IH; symmetry; exact Hrest].
    destruct (py_eq (dget (Data ev) "EventSource")
                    (dget (Data last) "EventSource"));
      [| apply IH; symmetry; exact Hrest].
    destruct (Qltb (Timestamp ev - Timestamp last) 5).
    + destruct (IH (set_Consumed true ev) (S k) (hash_list ++ [Hash ev])
                  (<[k := set_Consumed true ev]> events)) as [last' Hloop].
      { rewrite drop_insert_lt by lia. symmetry. exact Hrest. }
      exists last'.
      assert (Hrun : scroll_run_loop (set_Consumed true ev) (S k) rest
                     = scroll_run_loop ev (S k) rest)
        by (apply scroll_run_loop_last; reflexivity).
      rewrite Hloop, Hrun, (insert_consumed_alter events k ev Hk),
        hashes_of_alter, hashes_of_cons, Hk, <- app_assoc.
      reflexivity.
    + exists last. rewrite app_nil_r. reflexivity.
Qed.


Lemma py_eq_refl (a : value) : py_eq a a = true.
Proof.
  destruct a as [| [|] | x | s]; simpl; try reflexivity;
    [apply Z.eqb_refl | apply String.eqb_refl].
Qed.




(** ** Mouse-press policy *)

Lemma append_nonempty (s t : string) :
  String.eqb t "" = false -> String.eqb (s +:+ t) "" = false.
Proof. intros Ht. destruct s; [exact Ht | reflexivity]. Qed.

(** C4 (as the code has it).  With the cursor on a press of a button other
    than left and middle whose popup-trigger flag is set, whose source has a
    display name and whose companion field text is a string, the policy
    emits exactly three statements: the observed press, with the context
    menu as its effect, then two inferred ones, a set-comment and a
    relabel.  The two inferred statements have the same provenance, the
    hash of the triggering record alone; the observed statement's
    provenance is that hash followed by the hash of the companion location
    record (the empty string when there is none). *)
Theorem popup_press_statements (b : HashBuffer) (index : nat) (event : Event)
    (plugin field hash_field : string) (field_events : list Event) :
  index_ b = Some index ->
  events_ b !! index = Some event ->
  py_eq (dget (Data event) "MouseButton") (VInt 1) = false ->
  py_eq (dget (Data event) "MouseButton") (VInt 2) = false ->
  truthy (dget (Data event) "IsPopupTrigger") = true ->
  table_get internal_plugin_to_grammar (dget (Data event) "EventSource")
    = Some plugin ->
  load_field_location_events b = Ok field_events ->
  get_field_from_plugin field_events (dget (Data event) "EventSource")
    = (VStr field, hash_field) ->
  exists core comment relabel,
    MousePressedEvent.parse_event b = Ok (Some [core; comment; relabel]) /\
    inferred_ core = false /\
    inferred_ comment = true /\
    inferred_ relabel = true /\
    hash_list_ core = [Hash event; hash_field] /\
    hash_list_ comment = [Hash event] /\
    hash_list_ relabel = [Hash event] /\
    input_action_ (sentence_ core) =
      "Right " +:+ click_action (dget (Data event) "ClickCount") /\
    tool_context_ (sentence_ core) = plugin +:+ " : Field(" +:+ field +:+ ")" /\
    action_ (sentence_ core) =
      plugin +:+ " : Field(" +:+ field +:+ ") : Context Menu" /\
    tool_context_ (sentence_ comment) =
      plugin +:+ " : Field(" +:+ field +:+ ") : Context Menu : Set Comment..." /\
    action_ (sentence_ comment) = "Open(CommentPlugin)" /\
    tool_context_ (sentence_ relabel) =
      plugin +:+ " : Field(" +:+ field +:+ ") : Context Menu : relabel" /\
    action_ (sentence_ relabel) = "Open(RelabelPlugin)".
Proof.
  intros Hi He H1 H2 Hpop Hplugin Hload Hfield.
  unfold MousePressedEvent.parse_event.
  rewrite (current_at b index event Hi He). cbn [mbind result_bind].
  unfold MousePressedEvent.button_branch.
  rewrite H1, H2, Hpop, Hload. cbn [mbind result_bind].
  rewrite Hfield. unfold table_get_str. rewrite Hplugin.
  cbn [mbind result_bind as_str].
  unfold MousePressedEvent.generate_inferred_right_click_events.
  rewrite (current_at b index event Hi He). cbn [mbind result_bind].
  unfold table_get_str. rewrite Hplugin. cbn [mbind result_bind].
  cbn [MousePressedEvent.tool_context MousePressedEvent.tool_action
       MousePressedEvent.hash_from_field MousePressedEvent.mouse_button
       MousePressedEvent.grammar_statements].
  rewrite !append_nonempty by reflexivity. cbn [negb mbind result_bind].
  eexists _, _, _. split; [reflexivity |].
  repeat split; reflexivity.
Qed.

Lemma popup_press_statements_witness :
  exists core comment relabel,
    MousePressedEvent.parse_event popup_press
      = Ok (Some [core; comment; relabel]) /\
    inferred_ core = false /\
    inferred_ comment = true /\
    inferred_ relabel = true /\
    hash_list_ core = ["p0"; "f0"] /\
    hash_list_ comment = ["p0"] /\
    hash_list_ relabel = ["p0"] /\
    input_action_ (sentence_ core) = "Right Click" /\
    tool_context_ (sentence_ core) = "Decompiler : Field(main)" /\
    action_ (sentence_ core) = "Decompiler : Field(main) : Context Menu" /\
    tool_context_ (sentence_ comment) =
      "Decompiler : Field(main) : Context Menu : Set Comment..." /\
    action_ (sentence_ comment) = "Open(CommentPlugin)" /\
    tool_context_ (sentence_ relabel) =
      "Decompiler : Field(main) : Context Menu : relabel" /\
    action_ (sentence_ relabel) = "Open(RelabelPlugin)".
Proof.
  apply (popup_press_statements popup_press 1%nat
           (press_record 3 true "CavaDecompilePlugin" (1 # 10) "p0")
           "Decompiler" "main" "f0"
           [field_location_record "CavaDecompilePlugin" "main" 0 "f0"]);
    reflexivity.
Defined.

Lemma popup_press_hash_lists :
  exists core comment relabel,
    MousePressedEvent.parse_event popup_press
      = Ok (Some [core; comment; relabel]) /\
    hash_list_ core = ["p0"; "f0"] /\
    hash_list_ comment = ["p0"].
Proof. eexists _, _, _. repeat split; reflexivity. Qed.

(** C4 (as stated) fails: the three statements do not share one provenance
    hash set; the observed statement also carries the hash of the companion
    location record. *)
Lemma popup_press_provenance_differs :
  ~ (exists core comment relabel,
       MousePressedEvent.parse_event popup_press
         = Ok (Some [core; comment; relabel]) /\
       list_to_set (hash_list_ core) =@{gset string}
         list_to_set (hash_list_ comment) /\
       list_to_set (hash_list_ comment) =@{gset string}
         list_to_set (hash_list_ relabel)).
Proof.
  intros (core & comment & relabel & Hparse & Hset & _).
  destruct popup_press_hash_lists
    as (core' & comment' & relabel' & Hparse' & Hc & Hm).
  rewrite Hparse in Hparse'. injection Hparse' as -> -> ->.
  rewrite Hc, Hm in Hset.
  assert (Hin : "f0" ∈@{gset string} list_to_set ["p0"; "f0"]) by set_solver.
  rewrite Hset in Hin. set_solver.
Qed.

(** ** Program-activation policy *)









(** * Further properties of the code *)

(** ** Buffer operations *)

(** X1. The cursor never leaves the buffer: a fresh buffer has the cursor
    unset and no record, and [add], [next], [purge] (with any integer) and
    [reset_index] keep the cursor unset only on an empty buffer and
    otherwise between 0 and the length. *)
Theorem cursor_stays_in_range :
  (forall release, cursor_in_range (HashBuffer.init release)) /\
  (forall b, cursor_in_range b ->
     (forall md5 name data ts,
        cursor_in_range (HashBuffer.add md5 b name data ts)) /\
     cursor_in_range (HashBuffer.next b) /\
     (forall k, cursor_in_range (HashBuffer.purge b k).2) /\
     cursor_in_range (HashBuffer.reset_index b)).
Proof.
  split; [reflexivity |].
  intros b Hb. unfold cursor_in_range in *. repeat split.
  - intros md5 name data ts. unfold HashBuffer.add. simpl.
    rewrite length_app. simpl. destruct (index_ b); lia.
  - unfold HashBuffer.next, HashBuffer.has_next.
    destruct (index_ b) as [i |] eqn:Hi; simpl; [| rewrite Hi; exact Hb].
    destruct (Nat.leb_spec (length (events_ b)) i); simpl.
    + rewrite Hi. exact Hb.
    + lia.
  - intros k. unfold HashBuffer.purge.
    destruct (Z.of_nat (length (events_ b)) <=? k); simpl; [exact Hb | lia].
  - simpl. lia.
Qed.

(** X2. Adding a record does not disturb the record under the cursor; when
    the cursor stands at the end of the buffer (or the buffer is fresh),
    the added record becomes the current one, unconsumed. *)
Theorem add_then_current (md5 : string -> gmap string value -> string)
    (b : HashBuffer) (name : string) (data : gmap string value) (ts : Q) :
  cursor_in_range b ->
  (forall ev, HashBuffer.current b = Ok (Some ev) ->
     HashBuffer.current (HashBuffer.add md5 b name data ts) = Ok (Some ev)) /\
  (HashBuffer.has_next b = false ->
     HashBuffer.current (HashBuffer.add md5 b name data ts) =
       Ok (Some {| Name := name; Data := data; Timestamp := ts;
                   Hash := md5 name data; Consumed := false |})).
Proof.
  intros Hb. unfold cursor_in_range in Hb.
  unfold HashBuffer.current, HashBuffer.has_next, HashBuffer.add. simpl.
  rewrite length_app. simpl. split.
  - intros ev. destruct (index_ b) as [i |]; [| discriminate].
    destruct (Nat.leb_spec (length (events_ b)) i) as [Hle | Hlt];
      [discriminate |].
    intros Hev. injection Hev as Hev.
    destruct (Nat.leb_spec (length (events_ b) + 1) i); [lia |].
    rewrite lookup_app_l by exact Hlt. rewrite Hev. reflexivity.
  - destruct (index_ b) as [i |].
    + destruct (Nat.leb_spec (length (events_ b)) i) as [Hle | Hlt];
        [| discriminate].
      intros _. assert (i = length (events_ b)) by lia. subst i.
      destruct (Nat.leb_spec (length (events_ b) + 1) (length (events_ b)));
        [lia |].
      rewrite lookup_app_r, Nat.sub_diag by lia. reflexivity.
    + intros _. rewrite Hb. reflexivity.
Qed.

Lemma add_then_current_witness :
  (forall ev, HashBuffer.current single_key = Ok (Some ev) ->
     HashBuffer.current
       (HashBuffer.add (fun n _ => n) single_key "HeaderEvent" ∅ 1)
     = Ok (Some ev)) /\
  (HashBuffer.has_next single_key = false ->
     HashBuffer.current
       (HashBuffer.add (fun n _ => n) single_key "HeaderEvent" ∅ 1) =
       Ok (Some {| Name := "HeaderEvent"; Data := ∅; Timestamp := 1;
                   Hash := "HeaderEvent"; Consumed := false |})).
Proof.
  apply (add_then_current (fun n _ => n) single_key "HeaderEvent" ∅ 1).
  unfold cursor_in_range. simpl. lia.
Defined.

Lemma next_spec (b : HashBuffer) (i : nat) :
  index_ b = Some i ->
  index_ (HashBuffer.next b)
    = Some (if (length (events_ b) <=? i)%nat then i else S i) /\
  events_ (HashBuffer.next b) = events_ b /\
  release_ (HashBuffer.next b) = release_ b.
Proof.
  intros Hi. unfold HashBuffer.next, HashBuffer.has_next. rewrite Hi.
  destruct (length (events_ b) <=? i)%nat; simpl; rewrite ?Hi; auto.
Qed.

Lemma next_iter_index (n : nat) :
  forall b i,
    index_ b = Some i -> (i <= length (events_ b))%nat ->
    index_ (Nat.iter n HashBuffer.next b)
      = Some (Nat.min (i + n) (length (events_ b))) /\
    events_ (Nat.iter n HashBuffer.next b) = events_ b /\
    release_ (Nat.iter n HashBuffer.next b) = release_ b.
Proof.
  induction n as [| n IH]; intros b i Hi Hle; simpl.
  - rewrite Hi, Nat.add_0_r, Nat.min_l by exact Hle. auto.
  - destruct (IH b i Hi Hle) as (Hidx & Hev & Hrel).
    destruct (next_spec _ _ Hidx) as (Hidx' & Hev' & Hrel').
    rewrite Hidx', Hev', Hrel', Hev, Hrel. repeat split. f_equal.
    destruct (Nat.leb_spec (length (events_ b))
                (Nat.min (i + n) (length (events_ b)))); lia.
Qed.

(** X3. Stepping with [next]: from a cursor [i] inside the buffer, [n]
    steps leave the records as they are and put the cursor at
    [min (i + n) length]; so the cursor never decreases, after
    [length - i] steps [has_next] is false, and further steps do nothing. *)
Theorem next_steps (b : HashBuffer) (i n : nat) :
  index_ b = Some i ->
  (i <= length (events_ b))%nat ->
  index_ (Nat.iter n HashBuffer.next b)
    = Some (Nat.min (i + n) (length (events_ b))) /\
  events_ (Nat.iter n HashBuffer.next b) = events_ b /\
  (HashBuffer.has_next (Nat.iter n HashBuffer.next b) = false
     <-> (length (events_ b) - i <= n)%nat) /\
  ((length (events_ b) - i <= n)%nat ->
     HashBuffer.next (Nat.iter n HashBuffer.next b)
       = Nat.iter n HashBuffer.next b).
Proof.
  intros Hi Hle.
  destruct (next_iter_index n b i Hi Hle) as (Hidx & Hev & Hrel).
  split; [exact Hidx |]. split; [exact Hev |].
  assert (Hnext : HashBuffer.has_next (Nat.iter n HashBuffer.next b) = false
                  <-> (length (events_ b) - i <= n)%nat).
  { unfold HashBuffer.has_next. rewrite Hidx, Hev.
    destruct (Nat.leb_spec (length (events_ b))
                (Nat.min (i + n) (length (events_ b)))); simpl;
      split; intros; try reflexivity; try discriminate; lia. }
  split; [exact Hnext |].
  intros Hn. apply Hnext in Hn.
  set (b' := Nat.iter n HashBuffer.next b) in *.
  unfold HashBuffer.next. rewrite Hn. reflexivity.
Qed.

Lemma next_steps_witness :
  index_ (Nat.iter 5 HashBuffer.next keys_a_bs_b)
    = Some (Nat.min (0 + 5) (length (events_ keys_a_bs_b))) /\
  events_ (Nat.iter 5 HashBuffer.next keys_a_bs_b) = events_ keys_a_bs_b /\
  (HashBuffer.has_next (Nat.iter 5 HashBuffer.next keys_a_bs_b) = false
     <-> (length (events_ keys_a_bs_b) - 0 <= 5)%nat) /\
  ((length (events_ keys_a_bs_b) - 0 <= 5)%nat ->
     HashBuffer.next (Nat.iter 5 HashBuffer.next keys_a_bs_b)
       = Nat.iter 5 HashBuffer.next keys_a_bs_b).
Proof.
  apply (next_steps keys_a_bs_b 0%nat 5%nat); [reflexivity | simpl; lia].
Defined.


(** X5. Purging up to the cursor keeps the current record current: with
    the cursor on a record at position [i], after [purge(i)] the cursor is
    0 and [current()] returns the same record. *)
Theorem purge_to_cursor_keeps_current (b : HashBuffer) (i : nat) (ev : Event) :
  index_ b = Some i ->
  events_ b !! i = Some ev ->
  HashBuffer.current b = Ok (Some ev) /\
  (HashBuffer.purge b (Z.of_nat i)).1 = HashBuffer.PurgeNone /\
  HashBuffer.current (HashBuffer.purge b (Z.of_nat i)).2 = Ok (Some ev) /\
  events_ (HashBuffer.purge b (Z.of_nat i)).2 = drop i (events_ b).
Proof.
  intros Hi Hev. split; [apply (current_at b i ev Hi Hev) |].
  pose proof (lookup_lt_Some _ _ _ Hev) as Hlt.
  unfold HashBuffer.purge.
  destruct (Z.leb_spec (Z.of_nat (length (events_ b))) (Z.of_nat i)); [lia |].
  simpl. rewrite slice_from_nonneg, Nat2Z.id by lia.
  split; [reflexivity |]. split; [| reflexivity].
  apply (current_at _ 0%nat ev); [reflexivity |].
  simpl. rewrite lookup_drop, Nat.add_0_r. exact Hev.
Qed.

Lemma purge_to_cursor_keeps_current_witness :
  HashBuffer.current popup_press
    = Ok (Some (press_record 3 true "CavaDecompilePlugin" (1 # 10) "p0")) /\
  (HashBuffer.purge popup_press (Z.of_nat 1)).1 = HashBuffer.PurgeNone /\
  HashBuffer.current (HashBuffer.purge popup_press (Z.of_nat 1)).2
    = Ok (Some (press_record 3 true "CavaDecompilePlugin" (1 # 10) "p0")) /\
  events_ (HashBuffer.purge popup_press (Z.of_nat 1)).2
    = drop 1 (events_ popup_press).
Proof.
  apply (purge_to_cursor_keeps_current popup_press 1%nat); reflexivity.
Defined.

(** ** Dispatcher *)

Lemma consumed_more_refl (events : list Event) : consumed_more events events.
Proof. apply Forall2_same_length_lookup_2; [reflexivity |]. intros; left; congruence. Qed.

Lemma consumed_more_trans (e1 e2 e3 : list Event) :
  consumed_more e1 e2 -> consumed_more e2 e3 -> consumed_more e1 e3.
Proof.
  unfold consumed_more. intros H12. revert e3.
  induction H12 as [| x y l1 l2 Hxy H12 IH]; intros e3 H23;
    inversion H23 as [| y' z l2' l3 Hyz H23']; subst; constructor.
  - destruct Hxy as [-> | ->], Hyz as [-> | ->]; auto.
  - apply IH. exact H23'.
Qed.

Lemma consumed_more_alter (events : list Event) (r : nat) :
  consumed_more events (alter (set_Consumed true) r events).
Proof.
  revert r.
  induction events as [| e events IH]; intros [| r]; simpl.
  - constructor.
  - constructor.
  - constructor; [right; reflexivity | apply consumed_more_refl].
  - constructor; [left; reflexivity | apply IH].
Qed.

Lemma consumed_more_mark (run : list nat) :
  forall events, consumed_more events (mark_consumed run events).
Proof.
  induction run as [| r run IH]; intros events; simpl.
  - apply consumed_more_refl.
  - eapply consumed_more_trans; [apply consumed_more_alter | apply IH].
Qed.

Lemma only_marks_refl (b : HashBuffer) : only_marks b b.
Proof. repeat split. apply consumed_more_refl. Qed.

Lemma only_marks_mark (b : HashBuffer) (run : list nat) :
  only_marks b (with_events b (mark_consumed run (events_ b))).
Proof. repeat split. apply consumed_more_mark. Qed.

Lemma current_cases (b : HashBuffer) :
  (exists i ev, index_ b = Some i /\ events_ b !! i = Some ev /\
                HashBuffer.current b = Ok (Some ev)) \/
  (HashBuffer.current b = Ok None) \/
  (HashBuffer.current b = Raise TypeError).
Proof.
  unfold HashBuffer.current. destruct (index_ b) as [i |]; [| auto].
  destruct (Nat.leb_spec (length (events_ b)) i) as [Hle | Hlt]; [auto |].
  destruct (lookup_lt_is_Some_2 (events_ b) i Hlt) as [ev Hev].
  left. exists i, ev. rewrite Hev. auto.
Qed.

Lemma keyboard_only_marks (b : HashBuffer) :
  only_marks b (KeyboardEvent.parse_event b).2.
Proof.
  destruct (current_cases b) as [(i & ev & Hi & Hev & Hcur) | [Hcur | Hcur]].
  - rewrite (keyboard_parse_event_eq b i ev Hi Hev). cbv zeta.
    destruct (Consumed ev); [apply only_marks_refl |].
    destruct (py_eq (dget (Data ev) "EventName") (VStr "UP"));
      [apply only_marks_refl |].
    destruct (KeyboardEvent.typing_loop ev (S i) (drop (S i) (events_ b)));
      [apply only_marks_refl | apply only_marks_mark].
  - unfold KeyboardEvent.parse_event. rewrite Hcur. apply only_marks_refl.
  - unfold KeyboardEvent.parse_event. rewrite Hcur. apply only_marks_refl.
Qed.

Lemma consume_scroll_events_eq (b : HashBuffer) (i : nat) (ev : Event) :
  index_ b = Some i ->
  events_ b !! i = Some ev ->
  exists last',
    VerticalScrollbarAdjustmentEvent.consume_scroll_events b =
    Ok (Some last',
        hashes_of (events_ b) (scroll_run_loop ev (S i) (drop (S i) (events_ b))),
        with_events b
          (mark_consumed (scroll_run_loop ev (S i) (drop (S i) (events_ b)))
             (events_ b))).
Proof.
  intros Hi Hev.
  destruct (consume_loop_eq (drop (S i) (events_ b)) ev (S i) [] (events_ b)
              eq_refl) as [last' Hloop].
  exists last'.
  unfold VerticalScrollbarAdjustmentEvent.consume_scroll_events.
  rewrite (current_at b i ev Hi Hev). cbn [mbind result_bind].
  unfold HashBuffer.get_index, HashBuffer.get_event_list. rewrite Hi, Hloop.
  reflexivity.
Qed.

Lemma scrollbar_only_marks (b : HashBuffer) :
  only_marks b (VerticalScrollbarAdjustmentEvent.parse_event b).2.
Proof.
  unfold VerticalScrollbarAdjustmentEvent.parse_event.
  destruct (current_cases b) as [(i & ev & Hi & Hev & Hcur) | [Hcur | Hcur]];
    rewrite Hcur; try apply only_marks_refl.
  destruct (Consumed ev); [apply only_marks_refl |].
  destruct (consume_scroll_events_eq b i ev Hi Hev) as [last' ->].
  destruct (length _ <? 2)%nat; apply only_marks_mark.
Qed.

Lemma window_mark_eq (b : HashBuffer) (i : nat) (ev : Event) :
  events_ b !! i = Some ev ->
  with_events b (<[i := set_Consumed true ev]> (events_ b))
    = with_events b (mark_consumed [i] (events_ b)).
Proof.
  intros Hev. simpl. rewrite (insert_consumed_alter _ _ _ Hev). reflexivity.
Qed.

Lemma window_only_marks (b : HashBuffer) :
  only_marks b (WindowEvent.parse_event b).2.
Proof.
  unfold WindowEvent.parse_event.
  destruct (current_cases b) as [(i & ev & Hi & Hev & Hcur) | [Hcur | Hcur]];
    rewrite Hcur; try apply only_marks_refl.
  unfold HashBuffer.get_index. rewrite Hi.
  destruct (Consumed ev); [apply only_marks_refl |].
  unfold WindowEvent.create_mouse_entry_sentence,
    WindowEvent.create_mouse_exit_sentence.
  destruct (py_eq (dget (Data ev) "EventType") (VStr "MouseEntry")).
  - cbn [snd]. rewrite (window_mark_eq b i ev Hev). apply only_marks_mark.
  - destruct (py_eq (dget (Data ev) "EventType") (VStr "MouseExit")).
    + cbn [snd]. rewrite (window_mark_eq b i ev Hev). apply only_marks_mark.
    + apply only_marks_refl.
Qed.

Lemma parse_event_only_marks (b : HashBuffer) :
  only_marks b (EventParser.parse_event b).2.
Proof.
  unfold EventParser.parse_event.
  destruct (HashBuffer.current b) as [[ev |] | e];
    try apply only_marks_refl.
  cbv zeta.
  repeat match goal with
         | |- context [if String.eqb ?x ?y then _ else _] =>
             destruct (String.eqb x y)
         end;
    first [ apply keyboard_only_marks | apply window_only_marks
          | apply scrollbar_only_marks | apply only_marks_refl ].
Qed.

(** X6. Whatever record is under the cursor, and whether or not the policy
    raises, a dispatch changes nothing of the buffer but consumption flags:
    the cursor, the release flag and the number and order of the records
    are kept, and every record is either untouched or the same record
    marked consumed; no record is ever un-consumed. *)
Theorem dispatch_only_marks (b : HashBuffer) :
  only_marks b (EventParser.parse_event b).2 /\
  length (events_ (EventParser.parse_event b).2) = length (events_ b) /\
  (forall i ev,
     events_ b !! i = Some ev ->
     exists ev',
       events_ (EventParser.parse_event b).2 !! i = Some ev' /\
       Name ev' = Name ev /\ Data ev' = Data ev /\
       Timestamp ev' = Timestamp ev /\ Hash ev' = Hash ev /\
       (Consumed ev = true -> Consumed ev' = true)).
Proof.
  pose proof (parse_event_only_marks b) as H.
  split; [exact H |].
  destruct H as (_ & _ & H). split.
  - symmetry. apply (Forall2_length _ _ _ H).
  - intros i ev Hev.
    destruct (Forall2_lookup_l _ _ _ _ _ H Hev) as (ev' & Hev' & Hrel).
    exists ev'. split; [exact Hev' |].
    destruct Hrel as [-> | ->]; repeat split; auto.
Qed.

(** X7. A record whose category has no branch in the dispatcher (pointer
    motion and click records, field-location records, the function-graph
    records, any unknown category) yields no statement, no error and no
    change of the buffer. *)
Theorem dispatch_unknown_category (b : HashBuffer) (ev : Event) :
  HashBuffer.current b = Ok (Some ev) ->
  Name ev ∉ dispatched_names ->
  EventParser.parse_event b = (Ok None, b).
Proof.
  intros Hcur Hname. unfold EventParser.parse_event. rewrite Hcur. cbv zeta.
  unfold dispatched_names in Hname.
  repeat match goal with
         | |- context [if String.eqb ?x ?y then _ else _] =>
             destruct (String.eqb_spec x y) as [Heq | _];
               [exfalso; apply Hname; rewrite Heq; set_solver |]
         end.
  reflexivity.
Qed.

Lemma dispatch_unknown_category_witness :
  EventParser.parse_event (with_index activation_without_click (Some 0%nat))
    = (Ok None, with_index activation_without_click (Some 0%nat)).
Proof.
  apply (dispatch_unknown_category
           (with_index activation_without_click (Some 0%nat))
           (mouse_record "CLICK" "LEFT" 0 "m0")); [reflexivity |].
  unfold dispatched_names. simpl.
  intros H. repeat (apply elem_of_cons in H as [H | H]; [discriminate H |]).
  inversion H.
Defined.

(** ** Driver loops *)

Lemma has_next_remaining (b : HashBuffer) :
  HashBuffer.has_next b = true ->
  exists i, index_ b = Some i /\ (i < length (events_ b))%nat.
Proof.
  unfold HashBuffer.has_next. destruct (index_ b) as [i |]; [| discriminate].
  destruct (Nat.leb_spec (length (events_ b)) i); [discriminate |].
  intros _. exists i. auto.
Qed.

Lemma drain_spec (fuel : nat) :
  forall b acc,
    (remaining b <= fuel)%nat ->
    CavaGen.drain fuel b acc = CavaGen.drain (remaining b) b acc /\
    (CavaGen.drain fuel b acc).1.1 <> Some NoFuel /\
    acc `prefix_of` (CavaGen.drain fuel b acc).1.2 /\
    release_ (CavaGen.drain fuel b acc).2 = release_ b /\
    consumed_more (events_ b) (events_ (CavaGen.drain fuel b acc).2) /\
    ((CavaGen.drain fuel b acc).1.1 = None ->
       HashBuffer.has_next (CavaGen.drain fuel b acc).2 = false /\
       (forall i, index_ b = Some i -> (i <= length (events_ b))%nat ->
          index_ (CavaGen.drain fuel b acc).2 = Some (length (events_ b)))).
Proof.
  induction fuel as [| fuel IH]; intros b acc Hfuel.
  - assert (Hn : HashBuffer.has_next b = false).
    { destruct (HashBuffer.has_next b) eqn:Hn; [| reflexivity].
      destruct (has_next_remaining b Hn) as (i & Hi & Hlt).
      unfold remaining in Hfuel. rewrite Hi in Hfuel. lia. }
    assert (Hd : forall n, CavaGen.drain n b acc = (None, acc, b)).
    { intros [| n]; simpl; rewrite Hn; reflexivity. }
    rewrite !Hd. simpl. repeat split; try discriminate.
    + reflexivity.
    + apply consumed_more_refl.
    + exact Hn.
    + intros i Hi Hle. unfold HashBuffer.has_next in Hn. rewrite Hi in Hn.
      destruct (Nat.leb_spec (length (events_ b)) i); [| discriminate].
      rewrite Hi. f_equal. lia.
  - destruct (HashBuffer.has_next b) eqn:Hn.
    + destruct (has_next_remaining b Hn) as (i & Hi & Hlt).
      assert (Hrem : remaining b = S (length (events_ b) - S i)).
      { unfold remaining. rewrite Hi. lia. }
      rewrite Hrem. simpl. rewrite Hn.
      pose proof (parse_event_only_marks b) as (Hrel & Hidx & Hcm).
      pose proof (eq_sym (Forall2_length _ _ _ Hcm)) as Hlen.
      destruct (EventParser.parse_event b) as [[gs | e] b1]; simpl in *.
      * set (acc' := match gs with Some g => acc ++ g | None => acc end).
        assert (Hacc : acc `prefix_of` acc').
        { unfold acc'. destruct gs; [apply prefix_app_r |]; reflexivity. }
        assert (Hi1 : index_ b1 = Some i) by congruence.
        destruct (next_spec b1 i Hi1) as (Hidx2 & Hev2 & Hrel2).
        destruct (Nat.leb_spec (length (events_ b1)) i) as [? | _]; [lia |].
        assert (Hrem2 : remaining (HashBuffer.next b1)
                        = (length (events_ b) - S i)%nat).
        { unfold remaining. rewrite Hidx2, Hev2, Hlen. reflexivity. }
        destruct (IH (HashBuffer.next b1) acc') as (H1 & H2 & H3 & H4 & H5 & H6);
          [lia |].
        rewrite Hrem2 in H1. rewrite H1.
        split; [reflexivity |]. rewrite <- H1.
        split; [exact H2 |].
        split; [etransitivity; eassumption |].
        split; [congruence |].
        split.
        { eapply consumed_more_trans; [exact Hcm |].
          rewrite <- Hev2. exact H5. }
        intros Hnone. destruct (H6 Hnone) as [H7 H8].
        split; [exact H7 |].
        intros i' Hi' _. rewrite (H8 (S i) Hidx2) by (rewrite Hev2; lia).
        rewrite Hev2, Hlen. reflexivity.
      * repeat split; try discriminate; try congruence;
          first [reflexivity | exact Hcm].
    + assert (Hd : forall n, CavaGen.drain n b acc = (None, acc, b)).
      { intros [| n]; simpl; rewrite Hn; reflexivity. }
      rewrite !Hd. simpl. repeat split; try discriminate.
      * reflexivity.
      * apply consumed_more_refl.
      * exact Hn.
      * intros i Hi Hle. unfold HashBuffer.has_next in Hn. rewrite Hi in Hn.
        destruct (Nat.leb_spec (length (events_ b)) i); [| discriminate].
        rewrite Hi. f_equal. lia.
Qed.

Lemma remaining_le_length (b : HashBuffer) :
  (remaining b <= length (events_ b))%nat.
Proof. unfold remaining. destruct (index_ b); lia. Qed.

(** X8. The dispatch loop of the driver always ends: from any buffer,
    [length] iterations suffice (more iterations change nothing), so it
    stops only because a policy raised or because no record is left.  It
    only appends to the statements collected so far, keeps the records
    apart from marking some consumed, and when no policy raises it ends
    with the cursor at the length of the buffer. *)
Theorem drain_all_completes (b : HashBuffer) (acc : list GrammarEvent) :
  (forall fuel, (length (events_ b) <= fuel)%nat ->
     CavaGen.drain fuel b acc = CavaGen.drain_all b acc) /\
  (CavaGen.drain_all b acc).1.1 <> Some NoFuel /\
  acc `prefix_of` (CavaGen.drain_all b acc).1.2 /\
  release_ (CavaGen.drain_all b acc).2 = release_ b /\
  consumed_more (events_ b) (events_ (CavaGen.drain_all b acc).2) /\
  ((CavaGen.drain_all b acc).1.1 = None ->
     HashBuffer.has_next (CavaGen.drain_all b acc).2 = false /\
     (forall i, index_ b = Some i -> (i <= length (events_ b))%nat ->
        index_ (CavaGen.drain_all b acc).2 = Some (length (events_ b)))).
Proof.
  unfold CavaGen.drain_all. split.
  - intros fuel Hfuel.
    pose proof (remaining_le_length b) as Hrem.
    destruct (drain_spec fuel b acc) as [-> _]; [lia |].
    destruct (drain_spec (length (events_ b)) b acc) as [-> _]; [lia |].
    reflexivity.
  - apply (drain_spec (length (events_ b)) b acc (remaining_le_length b)).
Qed.





(** ** A pass over a typing run *)










(** ** Window-focus policy *)

(** X11. An unconsumed window record of type "MouseEntry" or "MouseExit"
    with a window name yields exactly one observed statement ("Move :
    Enter" or "Move : Exit" in that window, provenance the record's hash)
    and is marked consumed, no other record being touched; dispatching the
    policy again at the same record yields nothing. *)
Theorem window_crossing_once (b : HashBuffer) (i : nat) (ev : Event)
    (window : string) (entry : bool) :
  index_ b = Some i ->
  events_ b !! i = Some ev ->
  Consumed ev = false ->
  dget (Data ev) "EventType" = VStr (if entry then "MouseEntry" else "MouseExit") ->
  dget (Data ev) "WindowName" = VStr window ->
  exists g b',
    WindowEvent.parse_event b = (Ok (Some [g]), b') /\
    inferred_ g = false /\
    hash_list_ g = [Hash ev] /\
    sentence_ g =
      three_fragments "Mouse" (if entry then "Move : Enter" else "Move : Exit")
        window /\
    b' = with_events b (<[i := set_Consumed true ev]> (events_ b)) /\
    WindowEvent.parse_event b' = (Ok None, b').
Proof.
  intros Hi Hev Hc Htype Hwin.
  assert (Hlt : (i < length (events_ b))%nat) by (eapply lookup_lt_Some; eauto).
  assert (Hagain :
    WindowEvent.parse_event
      (with_events b (<[i := set_Consumed true ev]> (events_ b)))
    = (Ok None, with_events b (<[i := set_Consumed true ev]> (events_ b)))).
  { unfold WindowEvent.parse_event.
    rewrite (current_at _ i (set_Consumed true ev));
      [| exact Hi | apply list_lookup_insert_eq; exact Hlt].
    unfold HashBuffer.get_index. cbn [index_ with_events]. rewrite Hi.
    reflexivity. }
  unfold WindowEvent.parse_event.
  rewrite (current_at b i ev Hi Hev). unfold HashBuffer.get_index.
  rewrite Hi, Hc, Htype.
  unfold WindowEvent.create_mouse_entry_sentence,
    WindowEvent.create_mouse_exit_sentence.
  destruct entry; cbn [py_eq as_int String.eqb Ascii.eqb Bool.eqb andb];
    cbn [Data set_Consumed]; rewrite Hwin; cbn [as_fragment mbind result_bind];
    eexists _, _; (split; [reflexivity |]); repeat split; exact Hagain.
Qed.

Lemma window_crossing_once_witness :
  exists g b',
    WindowEvent.parse_event
      (buffer_of [window_record "MouseEntry" "Decompiler" 0 "w0"] 0)
      = (Ok (Some [g]), b') /\
    inferred_ g = false /\
    hash_list_ g = ["w0"] /\
    sentence_ g = three_fragments "Mouse" "Move : Enter" "Decompiler" /\
    b' = with_events
           (buffer_of [window_record "MouseEntry" "Decompiler" 0 "w0"] 0)
           (<[0%nat := set_Consumed true
                         (window_record "MouseEntry" "Decompiler" 0 "w0")]>
              [window_record "MouseEntry" "Decompiler" 0 "w0"]) /\
    WindowEvent.parse_event b' = (Ok None, b').
Proof.
  apply (window_crossing_once
           (buffer_of [window_record "MouseEntry" "Decompiler" 0 "w0"] 0)
           0%nat (window_record "MouseEntry" "Decompiler" 0 "w0")
           "Decompiler" true); reflexivity.
Defined.

(** X12. An unconsumed window record of any other type (a click inside the
    window) with a window name yields exactly one observed statement and is
    not marked: the buffer is returned unchanged, so dispatching the policy
    at the same record again yields the same statement again. *)
Theorem window_click_not_consumed (b : HashBuffer) (i : nat) (ev : Event)
    (window : string) :
  index_ b = Some i ->
  events_ b !! i = Some ev ->
  Consumed ev = false ->
  py_eq (dget (Data ev) "EventType") (VStr "MouseEntry") = false ->
  py_eq (dget (Data ev) "EventType") (VStr "MouseExit") = false ->
  dget (Data ev) "WindowName" = VStr window ->
  WindowEvent.parse_event b =
    (Ok (Some [observed_event ev
                 (three_fragments "Mouse"
                    (click_type_action (dget (Data ev) "EventType")) window)
                 [Hash ev]]),
     b).
Proof.
  intros Hi Hev Hc Hentry Hexit Hwin. unfold WindowEvent.parse_event.
  rewrite (current_at b i ev Hi Hev). unfold HashBuffer.get_index.
  rewrite Hi, Hc, Hentry, Hexit.
  unfold WindowEvent.create_mouse_click_sentence. rewrite Hwin. reflexivity.
Qed.

Lemma window_click_not_consumed_witness :
  WindowEvent.parse_event
    (buffer_of [window_record "LeftClick" "Decompiler" 0 "w0"] 0) =
    (Ok (Some [observed_event (window_record "LeftClick" "Decompiler" 0 "w0")
                 (three_fragments "Mouse" "Left Click" "Decompiler") ["w0"]]),
     buffer_of [window_record "LeftClick" "Decompiler" 0 "w0"] 0).
Proof.
  apply (window_click_not_consumed
           (buffer_of [window_record "LeftClick" "Decompiler" 0 "w0"] 0)
           0%nat (window_record "LeftClick" "Decompiler" 0 "w0") "Decompiler");
    reflexivity.
Defined.

(** ** Toolbar policy *)

(** X13. The context fragment of a toolbar statement: with a header name
    [h], it is "Toolbar : h" when the menu item is absent or empty (a
    submenu item alone is dropped), "Toolbar : h : m" for a menu item [m]
    without submenu item, and "Toolbar : h : m : s" with both; the
    statement is observed, with the record's hash as provenance.  Without a
    header name the policy raises [TypeError]. *)
Theorem header_context (b : HashBuffer) (i : nat) (ev : Event) :
  index_ b = Some i ->
  events_ b !! i = Some ev ->
  let statement context :=
    Ok (Some [observed_event ev
                (three_fragments "Mouse"
                   (click_type_action (dget (Data ev) "EventType")) context)
                [Hash ev]]) in
  let menu := dget (Data ev) "MenuItem" in
  let submenu := dget (Data ev) "SubMenuItem" in
  (forall h, dget (Data ev) "Header" = VStr h ->
     (menu = VNone \/ menu = VStr "" ->
        HeaderEvent.parse_event b = statement ("Toolbar : " +:+ h)) /\
     (forall m, menu = VStr m -> m <> "" ->
        submenu = VNone \/ submenu = VStr "" ->
        HeaderEvent.parse_event b =
          statement (("Toolbar : " +:+ h) +:+ " : " +:+ m)) /\
     (forall m s, menu = VStr m -> m <> "" -> submenu = VStr s -> s <> "" ->
        HeaderEvent.parse_event b =
          statement (("Toolbar : " +:+ h) +:+ " : " +:+ m +:+ " : " +:+ s))) /\
  (dget (Data ev) "Header" = VNone ->
     HeaderEvent.parse_event b = Raise TypeError).
Proof.
  intros Hi Hev statement menu submenu.
  unfold HeaderEvent.parse_event.
  rewrite (current_at b i ev Hi Hev). cbn [mbind result_bind].
  fold menu submenu. split.
  - intros h Hh. rewrite Hh. split; [| split].
    + intros [-> | ->]; reflexivity.
    + intros m -> Hm Hsub.
      assert (Hne : String.eqb m "" = false) by (apply String.eqb_neq; exact Hm).
      cbn [is_None py_eq as_int negb as_str mbind result_bind]. rewrite Hne.
      cbn [negb]. destruct Hsub as [-> | ->];
        cbn [is_None py_eq as_int negb as_str mbind result_bind String.eqb];
        rewrite Hne; reflexivity.
    + intros m s -> Hm -> Hs.
      assert (Hne : String.eqb m "" = false) by (apply String.eqb_neq; exact Hm).
      assert (Hns : String.eqb s "" = false) by (apply String.eqb_neq; exact Hs).
      cbn [is_None py_eq as_int negb as_str mbind result_bind].
      rewrite Hne, Hns. cbn [negb mbind result_bind].
      rewrite (append_nonempty m (" : " +:+ s)) by reflexivity.
      reflexivity.
  - intros Hh. rewrite Hh.
    destruct (if negb _ then _ else _) as [meta | e] eqn:Hmeta;
      cbn [mbind result_bind as_str]; [reflexivity |].
    revert Hmeta.
    destruct (negb _); [| discriminate].
    destruct (if is_None menu then VStr "" else menu) as [| | |];
      cbn [as_str mbind result_bind]; try (intros H; congruence).
    destruct (negb _); [| discriminate].
    destruct (if is_None submenu then VStr "" else submenu) as [| | |];
      cbn [as_str mbind result_bind]; intros H; congruence.
Qed.

Lemma header_context_witness :
  let b := buffer_of [header_record "File" "LeftClick" "Open" "" 0 "t0"] 0 in
  let ev := header_record "File" "LeftClick" "Open" "" 0 "t0" in
  let statement context :=
    Ok (Some [observed_event ev
                (three_fragments "Mouse"
                   (click_type_action (dget (Data ev) "EventType")) context)
                [Hash ev]]) in
  let menu := dget (Data ev) "MenuItem" in
  let submenu := dget (Data ev) "SubMenuItem" in
  (forall h, dget (Data ev) "Header" = VStr h ->
     (menu = VNone \/ menu = VStr "" ->
        HeaderEvent.parse_event b = statement ("Toolbar : " +:+ h)) /\
     (forall m, menu = VStr m -> m <> "" ->
        submenu = VNone \/ submenu = VStr "" ->
        HeaderEvent.parse_event b =
          statement (("Toolbar : " +:+ h) +:+ " : " +:+ m)) /\
     (forall m s, menu = VStr m -> m <> "" -> submenu = VStr s -> s <> "" ->
        HeaderEvent.parse_event b =
          statement (("Toolbar : " +:+ h) +:+ " : " +:+ m +:+ " : " +:+ s))) /\
  (dget (Data ev) "Header" = VNone ->
     HeaderEvent.parse_event b = Raise TypeError).
Proof.
  apply (header_context
           (buffer_of [header_record "File" "LeftClick" "Open" "" 0 "t0"] 0)
           0%nat (header_record "File" "LeftClick" "Open" "" 0 "t0"));
    reflexivity.
Defined.

(** ** Field-key-entry policy *)

(** X14. A field-input record whose key code has no entry in the scan-code
    table yields nothing.  With a mapped key code, a source with a display
    name and a field text, it yields exactly one observed statement whose
    action fragment is "CTRL ", "SHIFT " and "ALT " in that order, each
    present only when its flag is the Boolean true, followed by the key
    name and a space. *)
Theorem field_input_statement (b : HashBuffer) (i : nat) (ev : Event) :
  index_ b = Some i ->
  events_ b !! i = Some ev ->
  (scan_code_get (dget (Data ev) "KeyCode") = None ->
     FieldInputEvent.parse_event b = Ok None) /\
  (forall key plugin field,
     scan_code_get (dget (Data ev) "KeyCode") = Some key ->
     table_get internal_plugin_to_grammar (dget (Data ev) "EventSource")
       = Some plugin ->
     dget (Data ev) "FieldText" = VStr field ->
     FieldInputEvent.parse_event b =
       Ok (Some [observed_event ev
                   (three_fragments "Keyboard"
                      ((if FieldInputEvent.is_True (dget (Data ev) "CtrlDown")
                        then "CTRL " else "")
                       +:+ (if FieldInputEvent.is_True (dget (Data ev) "ShiftDown")
                            then "SHIFT " else "")
                       +:+ (if FieldInputEvent.is_True (dget (Data ev) "AltDown")
                            then "ALT " else "")
                       +:+ key +:+ " ")
                      (plugin +:+ " : Field(" +:+ field +:+ ")"))
                   [Hash ev]])).
Proof.
  intros Hi Hev. unfold FieldInputEvent.parse_event.
  rewrite (current_at b i ev Hi Hev). cbn [mbind result_bind]. split.
  - intros ->. reflexivity.
  - intros key plugin field -> Hplugin ->.
    unfold table_get_str. rewrite Hplugin. cbn [mbind result_bind as_str].
    destruct (FieldInputEvent.is_True (dget (Data ev) "CtrlDown")),
      (FieldInputEvent.is_True (dget (Data ev) "ShiftDown")),
      (FieldInputEvent.is_True (dget (Data ev) "AltDown")); reflexivity.
Qed.

Lemma field_input_statement_witness :
  let ev := field_input_record "CavaDecompilePlugin" "main" 108 true false true
              0 "k0" in
  let b := buffer_of [ev] 0 in
  (scan_code_get (dget (Data ev) "KeyCode") = None ->
     FieldInputEvent.parse_event b = Ok None) /\
  (forall key plugin field,
     scan_code_get (dget (Data ev) "KeyCode") = Some key ->
     table_get internal_plugin_to_grammar (dget (Data ev) "EventSource")
       = Some plugin ->
     dget (Data ev) "FieldText" = VStr field ->
     FieldInputEvent.parse_event b =
       Ok (Some [observed_event ev
                   (three_fragments "Keyboard"
                      ((if FieldInputEvent.is_True (dget (Data ev) "CtrlDown")
                        then "CTRL " else "")
                       +:+ (if FieldInputEvent.is_True (dget (Data ev) "ShiftDown")
                            then "SHIFT " else "")
                       +:+ (if FieldInputEvent.is_True (dget (Data ev) "AltDown")
                            then "ALT " else "")
                       +:+ key +:+ " ")
                      (plugin +:+ " : Field(" +:+ field +:+ ")"))
                   [Hash ev]])).
Proof.
  apply (field_input_statement
           (buffer_of [field_input_record "CavaDecompilePlugin" "main" 108
                         true false true 0 "k0"] 0)
           0%nat
           (field_input_record "CavaDecompilePlugin" "main" 108 true false true
              0 "k0")); reflexivity.
Defined.

(** ** Mouse-press policy, without context menu *)

(** X15. A press of the left or middle button, or of another button
    without the popup-trigger flag, from a source with a display name
    yields exactly one observed statement: the button and click count as
    action, the display name as context, no effect fragment, and the
    record's hash alone as provenance. *)
Theorem plain_press_statement (b : HashBuffer) (i : nat) (ev : Event)
    (plugin : string) :
  index_ b = Some i ->
  events_ b !! i = Some ev ->
  py_eq (dget (Data ev) "MouseButton") (VInt 1) = true \/
  py_eq (dget (Data ev) "MouseButton") (VInt 2) = true \/
  truthy (dget (Data ev) "IsPopupTrigger") = false ->
  table_get internal_plugin_to_grammar (dget (Data ev) "EventSource")
    = Some plugin ->
  MousePressedEvent.parse_event b =
    Ok (Some [observed_event ev
                (three_fragments "Mouse"
                   (button_name (dget (Data ev) "MouseButton") +:+ " "
                    +:+ click_action (dget (Data ev) "ClickCount"))
                   plugin)
                [Hash ev]]).
Proof.
  intros Hi Hev Hplain Hplugin. unfold MousePressedEvent.parse_event.
  rewrite (current_at b i ev Hi Hev). cbn [mbind result_bind].
  unfold MousePressedEvent.button_branch, button_name.
  destruct (py_eq (dget (Data ev) "MouseButton") (VInt 1)) eqn:H1.
  - cbn [mbind result_bind MousePressedEvent.plain_button
         MousePressedEvent.tool_context MousePressedEvent.tool_action
         MousePressedEvent.mouse_button MousePressedEvent.grammar_statements
         MousePressedEvent.hash_from_field String.eqb negb].
    rewrite Hplugin. reflexivity.
  - destruct (py_eq (dget (Data ev) "MouseButton") (VInt 2)) eqn:H2.
    + cbn [mbind result_bind MousePressedEvent.plain_button
           MousePressedEvent.tool_context MousePressedEvent.tool_action
           MousePressedEvent.mouse_button MousePressedEvent.grammar_statements
           MousePressedEvent.hash_from_field String.eqb negb].
      rewrite Hplugin. reflexivity.
    + destruct Hplain as [H | [H | H]]; try discriminate. rewrite H.
      cbn [mbind result_bind MousePressedEvent.plain_button
           MousePressedEvent.tool_context MousePressedEvent.tool_action
           MousePressedEvent.mouse_button MousePressedEvent.grammar_statements
           MousePressedEvent.hash_from_field String.eqb negb].
      rewrite Hplugin. reflexivity.
Qed.

Lemma plain_press_statement_witness :
  MousePressedEvent.parse_event
    (buffer_of [press_record 1 false "CavaDecompilePlugin" 0 "p0"] 0) =
    Ok (Some [observed_event (press_record 1 false "CavaDecompilePlugin" 0 "p0")
                (three_fragments "Mouse" "Left Click" "Decompiler") ["p0"]]).
Proof.
  apply (plain_press_statement
           (buffer_of [press_record 1 false "CavaDecompilePlugin" 0 "p0"] 0)
           0%nat (press_record 1 false "CavaDecompilePlugin" 0 "p0")
           "Decompiler"); try reflexivity.
  left. reflexivity.
Defined.

(** ** Sources without a display name *)

Lemma load_field_location_events_ok (b : HashBuffer) (i : nat) (ev : Event) :
  index_ b = Some i ->
  events_ b !! i = Some ev ->
  load_field_location_events b =
    Ok (load_backward (Timestamp ev) (reverse (take i (events_ b)))
          (load_forward (Timestamp ev) (drop (S i) (events_ b)))).
Proof.
  intros Hi Hev. unfold load_field_location_events.
  rewrite (current_at b i ev Hi Hev). cbn [mbind result_bind].
  unfold HashBuffer.get_index, HashBuffer.get_event_list. rewrite Hi.
  reflexivity.
Qed.

(** X16. A record whose source has no entry in the display-name table is
    not skipped: the pointer-entered and pointer-exited policies end the
    program ([SystemExit], from [set_fragment] with [None]), as does the
    mouse-press policy without context menu; the field-interaction policy,
    the field-key-entry policy (for a mapped key code) and the mouse-press
    policy with context menu raise [TypeError]. *)
Theorem missing_display_name (b : HashBuffer) (i : nat) (ev : Event) :
  index_ b = Some i ->
  events_ b !! i = Some ev ->
  table_get internal_plugin_to_grammar (dget (Data ev) "EventSource") = None ->
  MouseEnteredEvent.parse_event b = Raise SystemExit /\
  MouseExitedEvent.parse_event b = Raise SystemExit /\
  FieldMouseEvent.parse_event b = Raise TypeError /\
  (forall key, scan_code_get (dget (Data ev) "KeyCode") = Some key ->
     FieldInputEvent.parse_event b = Raise TypeError) /\
  (py_eq (dget (Data ev) "MouseButton") (VInt 1) = true \/
   py_eq (dget (Data ev) "MouseButton") (VInt 2) = true \/
   truthy (dget (Data ev) "IsPopupTrigger") = false ->
     MousePressedEvent.parse_event b = Raise SystemExit) /\
  (py_eq (dget (Data ev) "MouseButton") (VInt 1) = false ->
   py_eq (dget (Data ev) "MouseButton") (VInt 2) = false ->
   truthy (dget (Data ev) "IsPopupTrigger") = true ->
     MousePressedEvent.parse_event b = Raise TypeError).
Proof.
  intros Hi Hev Hplugin.
  unfold MouseEnteredEvent.parse_event, MouseExitedEvent.parse_event,
    mouse_crossing_parse_event, FieldMouseEvent.parse_event,
    FieldInputEvent.parse_event, MousePressedEvent.parse_event.
  rewrite (current_at b i ev Hi Hev). cbn [mbind result_bind].
  unfold table_get_str. rewrite Hplugin. cbn [mbind result_bind].
  repeat split.
  - intros key ->. reflexivity.
  - intros Hplain. unfold MousePressedEvent.button_branch.
    destruct (py_eq (dget (Data ev) "MouseButton") (VInt 1));
      [reflexivity |].
    destruct (py_eq (dget (Data ev) "MouseButton") (VInt 2));
      [reflexivity |].
    destruct Hplain as [H | [H | H]]; try discriminate. rewrite H.
    reflexivity.
  - intros H1 H2 Hpop. unfold MousePressedEvent.button_branch.
    rewrite H1, H2, Hpop, (load_field_location_events_ok b i ev Hi Hev).
    cbn [mbind result_bind].
    destruct (get_field_from_plugin _ _) as [field hash_field].
    unfold table_get_str. rewrite Hplugin. reflexivity.
Qed.

Lemma missing_display_name_witness :
  let ev := crossing_record "MouseEnteredEvent" "UnknownPanel" 0 "c0" in
  let b := buffer_of [ev] 0 in
  MouseEnteredEvent.parse_event b = Raise SystemExit /\
  MouseExitedEvent.parse_event b = Raise SystemExit /\
  FieldMouseEvent.parse_event b = Raise TypeError /\
  (forall key, scan_code_get (dget (Data ev) "KeyCode") = Some key ->
     FieldInputEvent.parse_event b = Raise TypeError) /\
  (py_eq (dget (Data ev) "MouseButton") (VInt 1) = true \/
   py_eq (dget (Data ev) "MouseButton") (VInt 2) = true \/
   truthy (dget (Data ev) "IsPopupTrigger") = false ->
     MousePressedEvent.parse_event b = Raise SystemExit) /\
  (py_eq (dget (Data ev) "MouseButton") (VInt 1) = false ->
   py_eq (dget (Data ev) "MouseButton") (VInt 2) = false ->
   truthy (dget (Data ev) "IsPopupTrigger") = true ->
     MousePressedEvent.parse_event b = Raise TypeError).
Proof.
  apply (missing_display_name
           (buffer_of [crossing_record "MouseEnteredEvent" "UnknownPanel" 0 "c0"] 0)
           0%nat (crossing_record "MouseEnteredEvent" "UnknownPanel" 0 "c0"));
    reflexivity.
Defined.

(** ** Field-interaction policy: the companions kept *)

Lemma py_eq_sym (a b : value) : py_eq a b = py_eq b a.
Proof.
  destruct a as [| [|] | x | s], b as [| [|] | y | t];
    cbn [py_eq as_int]; try reflexivity;
    try apply Z.eqb_sym; apply String.eqb_sym.
Qed.

Lemma dict_set_elem (d : list (value * Event)) (k0 : value) (v : Event) :
  distinct_keys d ->
  forall k ev,
    (k, ev) ∈ FieldMouseEvent.dict_set d k0 v ->
    (ev = v /\ py_eq k k0 = true) \/ ((k, ev) ∈ d /\ py_eq k k0 = false).
Proof.
  induction d as [| [k' v'] d IH]; intros Hd k ev Hin; simpl in *.
  - apply list_elem_of_singleton in Hin. injection Hin as -> ->.
    left. split; [reflexivity | apply py_eq_refl].
  - destruct Hd as [Hfresh Hd].
    destruct (py_eq k' k0) eqn:Hk.
    + apply elem_of_cons in Hin as [Hin | Hin].
      * injection Hin as -> ->. left. auto.
      * right. split; [apply elem_of_cons; right; exact Hin |].
        rewrite <- (py_eq_true_r _ _ Hk). eapply Hfresh. exact Hin.
    + apply elem_of_cons in Hin as [Hin | Hin].
      * injection Hin as -> ->. right. split; [apply list_elem_of_here | exact Hk].
      * destruct (IH Hd k ev Hin) as [H | [H1 H2]]; [left; exact H |].
        right. split; [apply elem_of_cons; right; exact H1 | exact H2].
Qed.

Lemma dict_set_distinct (d : list (value * Event)) (k0 : value) (v : Event) :
  distinct_keys d -> distinct_keys (FieldMouseEvent.dict_set d k0 v).
Proof.
  induction d as [| [k' v'] d IH]; intros Hd; simpl in *.
  - split; [| exact I]. intros k'' v'' H. inversion H.
  - destruct Hd as [Hfresh Hd].
    destruct (py_eq k' k0) eqn:Hk; simpl.
    + split; assumption.
    + split; [| apply IH; exact Hd].
      intros k'' v'' Hin.
      destruct (dict_set_elem d k0 v Hd k'' v'' Hin) as [[-> H] | [H _]].
      * rewrite py_eq_sym, (py_eq_true_r _ _ H). exact Hk.
      * eapply Hfresh. exact H.
Qed.

Lemma dict_set_has (d : list (value * Event)) (k0 : value) (v : Event) :
  exists k, (k, v) ∈ FieldMouseEvent.dict_set d k0 v /\ py_eq k k0 = true.
Proof.
  induction d as [| [k' v'] d IH]; simpl.
  - exists k0. split; [apply list_elem_of_here | apply py_eq_refl].
  - destruct (py_eq k' k0) eqn:Hk.
    + exists k'. split; [apply list_elem_of_here | exact Hk].
    + destruct IH as (k & Hin & Hk'). exists k.
      split; [apply elem_of_cons; right; exact Hin | exact Hk'].
Qed.

Lemma dict_set_keeps_key (d : list (value * Event)) (k0 : value) (v : Event) :
  forall k ev, (k, ev) ∈ d ->
    exists ev', (k, ev') ∈ FieldMouseEvent.dict_set d k0 v.
Proof.
  induction d as [| [k' v'] d IH]; intros k ev Hin; [inversion Hin |].
  simpl. apply elem_of_cons in Hin as [Hin | Hin].
  - injection Hin as -> ->.
    destruct (py_eq k' k0); eexists; apply list_elem_of_here.
  - destruct (py_eq k' k0).
    + exists ev. apply elem_of_cons. right. exact Hin.
    + destruct (IH k ev Hin) as [ev' H]. exists ev'.
      apply elem_of_cons. right. exact H.
Qed.

Lemma select_loop_snoc (l : list Event) (x : Event) :
  forall acc,
    FieldMouseEvent.select_loop (l ++ [x]) acc =
    if Consumed x then FieldMouseEvent.select_loop l acc
    else FieldMouseEvent.dict_set (FieldMouseEvent.select_loop l acc)
           (source_of x) x.
Proof.
  induction l as [| y l IH]; intros acc; simpl.
  - destruct (Consumed x); reflexivity.
  - destruct (Consumed y); apply IH.
Qed.

Lemma select_loop_spec (l : list Event) :
  distinct_keys (FieldMouseEvent.select_loop l []) /\
  (forall k ev,
     (k, ev) ∈ FieldMouseEvent.select_loop l [] ->
     Consumed ev = false /\ py_eq (source_of ev) k = true /\
     exists l1 l2,
       l = l1 ++ ev :: l2 /\
       forall ev', ev' ∈ l2 -> Consumed ev' = false ->
                   py_eq (source_of ev') k = false) /\
  (forall ev,
     ev ∈ l -> Consumed ev = false ->
     exists k ev', (k, ev') ∈ FieldMouseEvent.select_loop l [] /\
                   py_eq (source_of ev) k = true).
Proof.
  induction l as [| x l IH] using rev_ind.
  - simpl. split; [exact I |]. split.
    + intros k ev H. inversion H.
    + intros ev H. inversion H.
  - destruct IH as (Hd & Ha & Hb). rewrite select_loop_snoc.
    destruct (Consumed x) eqn:Hx.
    + split; [exact Hd |]. split.
      * intros k ev Hin. destruct (Ha k ev Hin) as (Hc & Hk & l1 & l2 & -> & Hl2).
        split; [exact Hc |]. split; [exact Hk |].
        exists l1, (l2 ++ [x]). split; [rewrite <- app_assoc; reflexivity |].
        intros ev' Hin' Hc'. apply elem_of_app in Hin' as [Hin' | Hin'];
          [apply Hl2; assumption |].
        apply list_elem_of_singleton in Hin' as ->. congruence.
      * intros ev Hin Hc. apply elem_of_app in Hin as [Hin | Hin];
          [apply Hb; assumption |].
        apply list_elem_of_singleton in Hin as ->. congruence.
    + split; [apply dict_set_distinct; exact Hd |]. split.
      * intros k ev Hin.
        destruct (dict_set_elem _ _ _ Hd k ev Hin) as [[-> Hk] | [Hin' Hk]].
        -- split; [exact Hx |]. split; [rewrite py_eq_sym; exact Hk |].
           exists l, []. split; [reflexivity |]. intros ev' H. inversion H.
        -- destruct (Ha k ev Hin') as (Hc & Hk' & l1 & l2 & -> & Hl2).
           split; [exact Hc |]. split; [exact Hk' |].
           exists l1, (l2 ++ [x]). split; [rewrite <- app_assoc; reflexivity |].
           intros ev' Hin'' Hc'. apply elem_of_app in Hin'' as [Hin'' | Hin''];
             [apply Hl2; assumption |].
           apply list_elem_of_singleton in Hin'' as ->.
           rewrite py_eq_sym. exact Hk.
      * intros ev Hin Hc. apply elem_of_app in Hin as [Hin | Hin].
        -- destruct (Hb ev Hin Hc) as (k & ev' & Hin' & Hk).
           destruct (dict_set_keeps_key _ (source_of x) x k ev' Hin') as [ev'' H].
           exists k, ev''. split; assumption.
        -- apply list_elem_of_singleton in Hin as ->.
           destruct (dict_set_has (FieldMouseEvent.select_loop l [])
                       (source_of x) x) as (k & Hin & Hk).
           exists k, x. split; [exact Hin | rewrite py_eq_sym; exact Hk].
Qed.

(** X17. The companions a left click keeps.  Among the loaded
    field-location records, consumed ones are ignored and one record is
    kept per source: for a single click the earliest unconsumed record of
    that source, for any other click count the latest.  Every source with
    an unconsumed companion keeps one, and no source keeps two. *)
Theorem kept_companions (mouse_action : string) (companions : list Event) :
  let kept :=
    FieldMouseEvent.select_loop (visit_order mouse_action companions) [] in
  (forall k ev,
     (k, ev) ∈ kept ->
     Consumed ev = false /\ py_eq (source_of ev) k = true /\
     exists earlier later,
       companions = earlier ++ ev :: later /\
       forall ev',
         ev' ∈ (if String.eqb mouse_action "Click" then earlier else later) ->
         Consumed ev' = false -> py_eq (source_of ev') k = false) /\
  (forall ev,
     ev ∈ companions -> Consumed ev = false ->
     exists k ev', (k, ev') ∈ kept /\ py_eq (source_of ev) k = true) /\
  distinct_keys kept.
Proof.
  intros kept. unfold kept, visit_order.
  destruct (select_loop_spec
              (if String.eqb mouse_action "Click" then reverse companions
               else companions)) as (Hd & Ha & Hb).
  split; [| split; [| exact Hd]].
  - intros k ev Hin. destruct (Ha k ev Hin) as (Hc & Hk & l1 & l2 & Hl & Hl2).
    split; [exact Hc |]. split; [exact Hk |].
    destruct (String.eqb mouse_action "Click").
    + exists (reverse l2), (reverse l1). split.
      * rewrite <- (reverse_involutive companions), Hl.
        rewrite reverse_app, reverse_cons, <- app_assoc. reflexivity.
      * intros ev' Hin'. apply Hl2. apply elem_of_reverse. exact Hin'.
    + exists l1, l2. auto.
  - intros ev Hin Hc. apply Hb; [| exact Hc].
    destruct (String.eqb mouse_action "Click"); [apply elem_of_reverse |];
      exact Hin.
Qed.

(** ** Loading of field-location records *)





(** ** Field-interaction policy: the statement of a left click *)

Lemma string_app_assoc (a b c : string) :
  (a +:+ b) +:+ c = a +:+ (b +:+ c).
Proof.
  induction a as [| x a IH]; [reflexivity |].
  change (String x ((a +:+ b) +:+ c) = String x (a +:+ (b +:+ c))).
  rewrite IH. reflexivity.
Qed.

Lemma string_app_nil_r (a : string) : a +:+ "" = a.
Proof.
  induction a as [| x a IH]; [reflexivity |].
  change (String x (a +:+ "") = String x a). rewrite IH. reflexivity.
Qed.

Lemma tool_action_loop_more (items : list (value * Event))
    (entries : list (string * string)) :
  Forall2 entry_of items entries ->
  forall tool_action hash_list,
    String.eqb tool_action "" = false ->
    FieldMouseEvent.tool_action_loop items tool_action hash_list =
      Ok (tool_action +:+ match entries with
                          | [] => ""
                          | _ :: _ => " && " +:+ selection_text entries
                          end,
          hash_list ++ map (fun item => Hash item.2) items).
Proof.
  induction 1 as [| [k ev] [p f] items entries [Hp Hf] Hrest IH];
    intros tool_action hash_list Hne.
  - cbn [FieldMouseEvent.tool_action_loop map].
    rewrite string_app_nil_r, app_nil_r. reflexivity.
  - cbn [FieldMouseEvent.tool_action_loop]. cbv zeta.
    cbn [fst snd] in Hp, Hf. rewrite Hne, Hp. cbn [mbind result_bind].
    rewrite Hf. cbn [mbind result_bind].
    rewrite IH by (apply append_nonempty; reflexivity).
    cbn [map snd]. rewrite <- app_assoc. cbn [app].
    f_equal. f_equal. rewrite string_app_assoc.
    cbn [selection_text]. destruct entries; [| reflexivity].
    rewrite string_app_nil_r.
    change ((" && " +:+ p +:+ " : SelectionChanged : " +:+ "Field(" +:+ f +:+ ")")
            +:+ "")
      with (" && " +:+ ((p +:+ " : SelectionChanged : " +:+ "Field(" +:+ f +:+ ")")
                        +:+ "")).
    rewrite string_app_nil_r. reflexivity.
Qed.

Lemma tool_action_loop_all (items : list (value * Event))
    (entries : list (string * string)) :
  Forall2 entry_of items entries ->
  FieldMouseEvent.tool_action_loop items "" [] =
    Ok (selection_text entries, map (fun item => Hash item.2) items).
Proof.
  intros H. destruct H as [| [k ev] [p f] items entries [Hp Hf] Hrest];
    [reflexivity |].
  cbn [FieldMouseEvent.tool_action_loop]. cbv zeta.
  cbn [fst snd] in Hp, Hf. rewrite Hp. cbn [mbind result_bind].
  rewrite Hf. cbn [mbind result_bind].
  change (String.eqb "" "") with true. cbv iota.
  rewrite (tool_action_loop_more items entries Hrest)
    by exact (append_nonempty p
                (" : SelectionChanged : " +:+ "Field(" +:+ f +:+ ")") eq_refl).
  reflexivity.
Qed.

Lemma selection_text_nonempty (entry : string * string)
    (entries : list (string * string)) :
  String.eqb (selection_text (entry :: entries)) "" = false.
Proof.
  destruct entry as [p f]. cbn [selection_text].
  rewrite string_app_assoc. apply append_nonempty. reflexivity.
Qed.

(** X19. The statement of a left click on a field.  With the cursor on a
    field-interaction record of button 1 whose source has a display name
    and whose field text is a string, and with a display name and a string
    field text for every kept companion, the policy emits one observed
    statement: device [Mouse], action [Left] followed by the click word, the
    clicked field as context and, when a companion is kept, the
    selection changes of the kept companions, joined by [&&], as effect.
    Its provenance is the hashes of the kept companions followed by the hash
    of the click.  When no companion is kept the statement has no effect
    fragment and the click's hash alone. *)
Theorem left_click_statement (b : HashBuffer) (i : nat) (ev : Event)
    (plugin field : string) (companions : list Event)
    (entries : list (string * string)) :
  index_ b = Some i ->
  events_ b !! i = Some ev ->
  py_eq (dget (Data ev) "MouseButton") (VInt 1) = true ->
  table_get_str internal_plugin_to_grammar (dget (Data ev) "EventSource")
    = Ok plugin ->
  as_str (dget (Data ev) "FieldText") = Ok field ->
  load_field_location_events b = Ok companions ->
  let mouse_action := click_action (dget (Data ev) "ClickCount") in
  let kept :=
    FieldMouseEvent.select_loop (visit_order mouse_action companions) [] in
  Forall2 entry_of kept entries ->
  let sentence :=
    three_fragments "Mouse" ("Left " +:+ mouse_action)
      (plugin +:+ " : " +:+ "Field(" +:+ field +:+ ")") in
  FieldMouseEvent.parse_event b =
    Ok (Some [observed_event ev
                (match kept with
                 | [] => sentence
                 | _ :: _ =>
                     Interaction.set_fragment sentence (selection_text entries)
                       ACTION
                 end)
                (map (fun item => Hash item.2) kept ++ [Hash ev])]).
Proof.
  intros Hi Hev Hbutton Hplugin Hfield Hload mouse_action kept Hentries sentence.
  unfold FieldMouseEvent.parse_event.
  rewrite (current_at b i ev Hi Hev). cbn [mbind result_bind]. cbv zeta.
  rewrite Hplugin. cbn [mbind result_bind].
  rewrite Hfield. cbn [mbind result_bind].
  unfold button_name. rewrite Hbutton.
  change (String.eqb "Left" "Left") with true. cbv iota.
  unfold FieldMouseEvent.create_left_click_tool_action_fragment.
  rewrite Hload. cbn [mbind result_bind]. cbv zeta.
  fold (visit_order (click_action (dget (Data ev) "ClickCount")) companions).
  fold mouse_action. fold kept.
  rewrite (tool_action_loop_all kept entries Hentries).
  cbn [mbind result_bind].
  destruct Hentries as [| item entry items entries' Hitem Hrest].
  - reflexivity.
  - rewrite selection_text_nonempty. reflexivity.
Qed.

Lemma left_click_statement_witness :
  FieldMouseEvent.parse_event field_click =
    Ok (Some [observed_event decompiler_click
                (Interaction.set_sentence "Mouse" "Left Click"
                   "Decompiler : Field(main)"
                   ("Decompiler : SelectionChanged : Field(main) && " +:+
                    "CodeBrowser : ListingView : SelectionChanged : Field(old)"))
                ["f1"; "f0"; "m0"]]).
Proof.
  apply (left_click_statement field_click 2 decompiler_click
           "Decompiler" "main"
           [field_location_record "CavaCodeBrowserPlugin" "old" 1 "f0";
            field_location_record "CavaDecompilePlugin" "main" (31 # 10) "f1";
            field_location_record "CavaDecompilePlugin" "later" 9 "f2"]
           [("Decompiler", "main"); ("CodeBrowser : ListingView", "old")]);
    try reflexivity.
  repeat constructor.
Defined.

(** ** A pass over a scroll run *)







(** ** Batch processing across a flush *)





(** ** Field-interaction policy: the other buttons *)

(** X22. A field-interaction record whose button is not 1 never looks at
    the location records around it: it yields one observed statement whose
    provenance is the record's own hash.  Button 2 is reported as [Middle]
    with the highlight of the clicked field as effect; every other value,
    an absent button included, is reported as [Right] and has no effect
    fragment. *)
Theorem other_button_statement (b : HashBuffer) (i : nat) (ev : Event)
    (plugin field : string) :
  index_ b = Some i ->
  events_ b !! i = Some ev ->
  py_eq (dget (Data ev) "MouseButton") (VInt 1) = false ->
  table_get_str internal_plugin_to_grammar (dget (Data ev) "EventSource")
    = Ok plugin ->
  as_str (dget (Data ev) "FieldText") = Ok field ->
  let mouse_action := click_action (dget (Data ev) "ClickCount") in
  let tool_context := plugin +:+ " : " +:+ "Field(" +:+ field +:+ ")" in
  FieldMouseEvent.parse_event b =
    Ok (Some [observed_event ev
                (if py_eq (dget (Data ev) "MouseButton") (VInt 2) then
                   Interaction.set_sentence "Mouse" ("Middle " +:+ mouse_action)
                     tool_context
                     (plugin +:+ " : " +:+ " SetHighlight(" +:+ field +:+ ")")
                 else
                   Interaction.set_sentence "Mouse" ("Right " +:+ mouse_action)
                     tool_context "")
                [Hash ev]]).
Proof.
  intros Hi Hev Hbutton Hplugin Hfield mouse_action tool_context.
  unfold FieldMouseEvent.parse_event.
  rewrite (current_at b i ev Hi Hev). cbn [mbind result_bind]. cbv zeta.
  rewrite Hplugin. cbn [mbind result_bind].
  rewrite Hfield. cbn [mbind result_bind].
  unfold button_name. rewrite Hbutton.
  destruct (py_eq (dget (Data ev) "MouseButton") (VInt 2)).
  - change (String.eqb "Middle" "Left") with false.
    change (String.eqb "Middle" "Middle") with true. cbv iota.
    unfold FieldMouseEvent.create_mouse_wheel_click_tool_action_fragment.
    rewrite (current_at b i ev Hi Hev). cbn [mbind result_bind]. cbv zeta.
    rewrite Hplugin. cbn [mbind result_bind].
    rewrite Hfield. cbn [mbind result_bind].
    rewrite (append_nonempty plugin
               (" : " +:+ " SetHighlight(" +:+ field +:+ ")") eq_refl).
    reflexivity.
  - reflexivity.
Qed.

Lemma other_button_statement_witness :
  FieldMouseEvent.parse_event
    (buffer_of [field_mouse_record "CavaDecompilePlugin" "main" 2 1 0 "m0";
                field_location_record "CavaDecompilePlugin" "main" (1 # 10)
                  "f0"] 0) =
    Ok (Some [observed_event
                (field_mouse_record "CavaDecompilePlugin" "main" 2 1 0 "m0")
                (Interaction.set_sentence "Mouse" "Middle Click"
                   "Decompiler : Field(main)"
                   "Decompiler :  SetHighlight(main)")
                ["m0"]]).
Proof.
  apply (other_button_statement
           (buffer_of [field_mouse_record "CavaDecompilePlugin" "main" 2 1 0
                         "m0";
                       field_location_record "CavaDecompilePlugin" "main"
                         (1 # 10) "f0"] 0)
           0 (field_mouse_record "CavaDecompilePlugin" "main" 2 1 0 "m0")
           "Decompiler" "main"); reflexivity.
Defined.

(** ** Frames of a list of timed entries *)

Lemma py_index_nat {A : Type} (l : list A) (j : nat) :
  py_index l (Z.of_nat j) = l !! j.
Proof.
  unfold py_index.
  destruct (Z.leb_spec 0 (Z.of_nat j)); [| lia].
  rewrite Nat2Z.id. reflexivity.
Qed.

Lemma last_frame_loop_spec {A : Type} (event_list : list (entry * A))
    (end_time : Q) :
  forall n e0,
    (S e0 + n = length event_list)%nat ->
    exists e : nat,
      Buffer.last_frame_loop event_list end_time
        (range_up (Z.of_nat (S e0)) n) (Z.of_nat e0) = Some (Z.of_nat e) /\
      (e0 <= e < length event_list)%nat /\
      (forall j item,
         (e0 < j <= e)%nat -> event_list !! j = Some item ->
         (entry_timestamp item.1 < end_time)%Q) /\
      (forall item,
         event_list !! S e = Some item ->
         (end_time <= entry_timestamp item.1)%Q).
Proof.
  induction n as [| n IH]; intros e0 Hlen.
  - exists e0. split; [reflexivity |]. split; [lia |]. split.
    + intros j item Hj. lia.
    + intros item Hitem. apply lookup_lt_Some in Hitem. lia.
  - cbn [range_up Buffer.last_frame_loop]. rewrite py_index_nat.
    destruct (lookup_lt_is_Some_2 event_list (S e0)) as [[ev x] Hev]; [lia |].
    rewrite Hev. cbv zeta.
    destruct (Qltb (entry_timestamp ev) end_time) eqn:Hq.
    + replace (Z.of_nat (S e0) + 1) with (Z.of_nat (S (S e0))) by lia.
      replace (Z.of_nat e0 + 1) with (Z.of_nat (S e0)) by lia.
      destruct (IH (S e0)) as (e & Hloop & Hrange & Hin & Hout); [lia |].
      exists e. split; [exact Hloop |]. split; [lia |]. split; [| exact Hout].
      intros j item Hj Hitem.
      destruct (decide (j = S e0)) as [-> | Hne].
      * rewrite Hev in Hitem. injection Hitem as <-.
        apply Qltb_lt. exact Hq.
      * apply (Hin j item); [lia | exact Hitem].
    + exists e0. split; [reflexivity |]. split; [lia |]. split.
      * intros j item Hj. lia.
      * intros item Hitem. rewrite Hev in Hitem. injection Hitem as <-.
        apply Qltb_ge. exact Hq.
Qed.

Lemma find_last_spec {A : Type} (event_list : list (entry * A)) (s : nat)
    (first : entry * A) (frame_size : Q) :
  event_list !! s = Some first ->
  exists e : nat,
    Buffer.find_last_frame_event event_list (Z.of_nat s) frame_size
      = Some (Z.of_nat e) /\
    (s <= e < length event_list)%nat /\
    (forall j item,
       (s < j <= e)%nat -> event_list !! j = Some item ->
       (entry_timestamp item.1 < entry_timestamp first.1 + frame_size)%Q) /\
    (forall item,
       event_list !! S e = Some item ->
       (entry_timestamp first.1 + frame_size <= entry_timestamp item.1)%Q).
Proof.
  intros Hs. unfold Buffer.find_last_frame_event.
  rewrite py_index_nat, Hs. destruct first as [initial_event x]. cbv zeta.
  pose proof (lookup_lt_Some _ _ _ Hs) as Hlt.
  unfold py_range.
  replace (Z.of_nat s + 1) with (Z.of_nat (S s)) by lia.
  replace (Z.to_nat (Z.of_nat (length event_list) - Z.of_nat (S s)))
    with (length event_list - S s)%nat by lia.
  apply last_frame_loop_spec. lia.
Qed.

Lemma first_frame_loop_spec {A : Type} (event_list : list (entry * A))
    (new_start_time : Q) :
  forall k,
    (k < length event_list)%nat ->
    exists r : nat,
      Buffer.first_frame_loop event_list new_start_time
        (range_down (Z.of_nat k) (S k)) = Some (Z.of_nat r) /\
      (r <= S k)%nat /\
      (forall j item,
         (r <= j <= k)%nat -> event_list !! j = Some item ->
         (new_start_time <= entry_timestamp item.1)%Q) /\
      (forall item,
         (0 < r)%nat -> event_list !! (r - 1)%nat = Some item ->
         (entry_timestamp item.1 < new_start_time)%Q).
Proof.
  induction k as [| k IH]; intros Hlen.
  - cbn [range_down Buffer.first_frame_loop]. rewrite py_index_nat.
    destruct (lookup_lt_is_Some_2 event_list 0) as [[ev x] Hev]; [lia |].
    rewrite Hev. cbv zeta.
    destruct (Qltb (entry_timestamp ev) new_start_time) eqn:Hq.
    + exists 1%nat. split; [reflexivity |]. split; [lia |]. split.
      * intros j item Hj. lia.
      * intros item _ Hitem. cbn in Hitem. rewrite Hev in Hitem.
        injection Hitem as <-. apply Qltb_lt. exact Hq.
    + exists 0%nat. split; [reflexivity |]. split; [lia |]. split.
      * intros j item Hj Hitem. assert (j = 0%nat) by lia. subst j.
        rewrite Hev in Hitem. injection Hitem as <-.
        apply Qltb_ge. exact Hq.
      * intros item Hr. lia.
  - cbn [range_down Buffer.first_frame_loop]. rewrite py_index_nat.
    destruct (lookup_lt_is_Some_2 event_list (S k)) as [[ev x] Hev]; [lia |].
    rewrite Hev. cbv zeta.
    destruct (Qltb (entry_timestamp ev) new_start_time) eqn:Hq.
    + exists (S (S k)). split; [f_equal; lia |]. split; [lia |]. split.
      * intros j item Hj. lia.
      * intros item _ Hitem.
        replace (S (S k) - 1)%nat with (S k) in Hitem by lia.
        rewrite Hev in Hitem. injection Hitem as <-.
        apply Qltb_lt. exact Hq.
    + replace (Z.of_nat (S k) - 1) with (Z.of_nat k) by lia.
      destruct IH as (r & Hloop & Hr & Hin & Hout); [lia |].
      exists r. split; [exact Hloop |]. split; [lia |]. split; [| exact Hout].
      intros j item Hj Hitem.
      destruct (decide (j = S k)) as [-> | Hne].
      * rewrite Hev in Hitem. injection Hitem as <-.
        apply Qltb_ge. exact Hq.
      * apply (Hin j item); [lia | exact Hitem].
Qed.

Lemma find_first_spec {A : Type} (event_list : list (entry * A)) (s : nat)
    (current : entry * A) (res : Q) :
  (0 < s)%nat ->
  event_list !! s = Some current ->
  (0 <= res)%Q ->
  exists r : nat,
    Buffer.find_first_frame_event event_list (Z.of_nat s) res
      = Some (Z.of_nat r) /\
    (r <= s)%nat /\
    (forall j item,
       (r <= j <= s)%nat -> event_list !! j = Some item ->
       (entry_timestamp current.1 - res <= entry_timestamp item.1)%Q) /\
    (forall item,
       (0 < r)%nat -> event_list !! (r - 1)%nat = Some item ->
       (entry_timestamp item.1 < entry_timestamp current.1 - res)%Q).
Proof.
  intros Hpos Hs Hres. unfold Buffer.find_first_frame_event.
  destruct (Z.leb_spec (Z.of_nat s) 0); [lia |].
  rewrite py_index_nat, Hs. destruct current as [first_new_event x]. cbv zeta.
  pose proof (lookup_lt_Some _ _ _ Hs) as Hlt.
  unfold py_reversed_range.
  replace (Z.of_nat s + 1 - 1) with (Z.of_nat s) by lia.
  replace (Z.to_nat (Z.of_nat s + 1)) with (S s) by lia.
  destruct (first_frame_loop_spec event_list
              (entry_timestamp first_new_event - res)%Q s Hlt)
    as (r & Hloop & Hr & Hin & Hout).
  exists r. split; [exact Hloop |]. split; [| split; assumption].
  destruct (decide (r = S s)) as [-> | Hne]; [| lia].
  exfalso.
  assert (Hlt' : (entry_timestamp first_new_event
                  < entry_timestamp first_new_event - res)%Q).
  { apply (Hout (first_new_event, x)); [lia |].
    replace (S s - 1)%nat with s by lia. exact Hs. }
  lra.
Qed.





(** X25. The frame around a position.  For a start position inside the
    list and a resolution that is not negative, [get_frame] returns a
    contiguous block of the list that is not empty: it begins at the
    position found by [find_first_frame_event], which is at most the start
    and is returned with the block, and ends at the position found by
    [find_last_frame_event] from there. *)
Theorem get_frame_block {A : Type} (event_list : list (entry * A))
    (s : nat) (current : entry * A) (frame_size res : Q) :
  event_list !! s = Some current ->
  (0 <= res)%Q ->
  exists r e : nat,
    Buffer.find_first_frame_event event_list (Z.of_nat s) res
      = Some (Z.of_nat r) /\
    Buffer.find_last_frame_event event_list (Z.of_nat r) frame_size
      = Some (Z.of_nat e) /\
    (r <= s)%nat /\ (r <= e < length event_list)%nat /\
    Buffer.get_frame event_list (Z.of_nat s) frame_size res
      = Some (take (S e - r) (drop r event_list), Z.of_nat r) /\
    length (take (S e - r) (drop r event_list)) = (S e - r)%nat.
Proof.
  intros Hs Hres.
  assert (Hfirst : exists r : nat,
            Buffer.find_first_frame_event event_list (Z.of_nat s) res
              = Some (Z.of_nat r) /\ (r <= s)%nat).
  { destruct s as [| s'].
    - exists 0%nat. split; [reflexivity | lia].
    - destruct (find_first_spec event_list (S s') current res) as
        (r & Hr & Hle & _); [lia | exact Hs | exact Hres |].
      exists r. split; assumption. }
  destruct Hfirst as (r & Hfirst & Hle).
  pose proof (lookup_lt_Some _ _ _ Hs) as Hlt.
  destruct (lookup_lt_is_Some_2 event_list r) as [first Hr]; [lia |].
  destruct (find_last_spec event_list r first frame_size Hr)
    as (e & Hlast & Hrange & _).
  exists r, e. split; [exact Hfirst |]. split; [exact Hlast |].
  split; [exact Hle |]. split; [exact Hrange |]. split.
  - unfold Buffer.get_frame. rewrite Hfirst, Hlast. cbv zeta.
    unfold py_slice, slice_bound.
    destruct (Z.ltb_spec (Z.of_nat r) 0); [lia |].
    destruct (Z.ltb_spec (Z.of_nat e + 1) 0); [lia |].
    replace (Nat.min (Z.to_nat (Z.of_nat r)) (length event_list)) with r
      by lia.
    replace (Nat.min (Z.to_nat (Z.of_nat e + 1)) (length event_list))
      with (S e) by lia.
    reflexivity.
  - rewrite length_take, length_drop. lia.
Qed.

Lemma get_frame_block_witness :
  exists r e : nat,
    Buffer.find_first_frame_event timed_entries (Z.of_nat 4) 5
      = Some (Z.of_nat r) /\
    Buffer.find_last_frame_event timed_entries (Z.of_nat r) 5
      = Some (Z.of_nat e) /\
    (r <= 4)%nat /\ (r <= e < length timed_entries)%nat /\
    Buffer.get_frame timed_entries (Z.of_nat 4) 5 5
      = Some (take (S e - r) (drop r timed_entries), Z.of_nat r) /\
    length (take (S e - r) (drop r timed_entries)) = (S e - r)%nat.
Proof.
  apply (get_frame_block timed_entries 4
           (key_entry "DOWN" "KEY_E" 11, 4%nat) 5 5).
  - reflexivity.
  - discriminate.
Defined.
